(** * Library reconciliation pipeline of the immich server

    A shallow embedding of [LibraryService] (server/src/domain/library):
    the reconciler [refresh], the ingest worker [handleRefreshAsset] and the
    offline worker [handleOfflineAsset], together with the collaborators they
    call (asset catalog, job queue, crawler, file system, mime tables).

    The service is asynchronous TypeScript whose methods await one
    collaborator after the other; every method is embedded as a computation
    in a state-and-exception monad over a [World] that holds the catalog
    rows, the job queue and the log of collaborator calls.  An exception
    keeps the mutations made before it: nothing is rolled back. *)

From Stdlib Require Import String Ascii List ZArith NArith Bool Lia PeanoNat.
From Stdlib Require Import DecimalString.
Import ListNotations.
Open Scope string_scope.
Open Scope list_scope.

Set Implicit Arguments.

(** ** Values *)

(** A JavaScript [Date] is an object: [a !== b] on two dates compares the
    two object identities, never the instants they denote.  [date_ref] is
    the identity of the object and [date_ms] the instant (epoch
    milliseconds).  The ingest worker declares [stats : fs.Stats], whose
    [mtime] and [ctime] are [Date] objects, and stores them as they are in
    the columns [fileModifiedAt] and [fileCreatedAt]. *)
Record JsDate : Type := mkDate { date_ref : nat; date_ms : Z }.

(** [a !== b] for two [Date] objects. *)
Definition strict_neq (a b : JsDate) : bool :=
  negb (Nat.eqb (date_ref a) (date_ref b)).

(** [fs.Stats], restricted to the members the service reads. *)
Record Stats : Type := mkStats { size : N; mtime : JsDate; ctime : JsDate }.

Inductive LibraryType : Type := IMPORT | UPLOAD.

Definition LibraryType_eqb (a b : LibraryType) : bool :=
  match a, b with
  | IMPORT, IMPORT | UPLOAD, UPLOAD => true
  | _, _ => false
  end.

Record LibraryEntity : Type := mkLibrary {
  library_id : string;
  library_owner : string;
  library_name : string;
  library_type : LibraryType;
  importPaths : list string;
  library_isVisible : bool
}.

(** [AssetType] is a string enum; the ingest worker casts an upper-cased
    mime class to it without a check, so any string can occur. *)
Definition AssetType : Type := string.
Definition AssetType_VIDEO : AssetType := "VIDEO".

(** A row of the asset catalog.  [owner] and [library] hold the ids of
    the referenced user and library. *)
Record AssetEntity : Type := mkAsset {
  id : nat;
  owner : string;
  library : string;
  checksum : string;
  originalPath : string;
  deviceAssetId : string;
  deviceId : string;
  fileCreatedAt : JsDate;
  fileModifiedAt : JsDate;
  type : AssetType;
  isFavorite : bool;
  isArchived : bool;
  duration : option string;
  isVisible : bool;
  livePhotoVideo : option nat;
  resizePath : option string;
  webpPath : option string;
  thumbhash : option string;
  encodedVideoPath : option string;
  tags : list string;
  sharedLinks : list string;
  originalFileName : string;
  faces : list string;
  sidecarPath : option string;
  isReadOnly : bool;
  isOffline : bool
}.

(** The row [a] with its [isOffline] column overwritten. *)
Definition set_isOffline (b : bool) (a : AssetEntity) : AssetEntity :=
  mkAsset (id a) (owner a) (library a) (checksum a) (originalPath a)
    (deviceAssetId a) (deviceId a) (fileCreatedAt a) (fileModifiedAt a)
    (type a) (isFavorite a) (isArchived a) (duration a) (isVisible a)
    (livePhotoVideo a) (resizePath a) (webpPath a) (thumbhash a)
    (encodedVideoPath a) (tags a) (sharedLinks a) (originalFileName a)
    (faces a) (sidecarPath a) (isReadOnly a) b.

Record ILibraryJob : Type := mkJob {
  assetPath : string;
  ownerId : string;
  libraryId : string;
  forceRefresh : bool;
  emptyTrash : bool
}.

(** [ScanLibraryDto]: both members are optional. *)
Record RefreshLibraryDto : Type := mkDto {
  dto_forceRefresh : option bool;
  dto_emptyTrash : option bool
}.

Record AuthUserDto : Type := mkAuth { auth_id : string }.

(** [x ?? false] *)
Definition orFalse (x : option bool) : bool :=
  match x with Some b => b | None => false end.

(** An item handed to [jobRepository.queue]: the job name with its data. *)
Inductive JobItem : Type :=
| REFRESH_LIBRARY_FILE (data : ILibraryJob)
| OFFLINE_LIBRARY_FILE (data : ILibraryJob)
| METADATA_EXTRACTION (assetId : nat) (source : string)
| VIDEO_CONVERSION (assetId : nat).

(** [BadRequestExceptionOf error description] is
    [new BadRequestException(error, description)], built around an error
    that was caught. *)
Inductive Exception : Type :=
| BadRequestException (message : string)
| BadRequestExceptionOf (error : Exception) (description : string)
| InternalServerErrorException (message : string)
| NotFoundException (message : string)
| Error (message : string)
| CollaboratorError (message : string).

Inductive Result (A : Type) : Type :=
| Ok (a : A)
| Throw (e : Exception).
Arguments Ok {A} a.
Arguments Throw {A} e.

(** ** Strings

    A JavaScript string is held as its UTF-8 encoding, one [ascii] per
    byte. *)

(** The white space of one byte: U+0009 to U+000D and U+0020. *)
Definition is_space (c : ascii) : bool :=
  match nat_of_ascii c with
  | 9 | 10 | 11 | 12 | 13 | 32 => true
  | _ => false
  end.

(** The white space of two bytes: U+00A0, encoded C2 A0. *)
Definition is_space2 (c d : ascii) : bool :=
  Nat.eqb (nat_of_ascii c) 194 && Nat.eqb (nat_of_ascii d) 160.

(** The white space of three bytes: U+1680 (E1 9A 80), U+2000 to U+200A
    (E2 80 80 to E2 80 8A), U+2028 and U+2029 (E2 80 A8, E2 80 A9), U+202F
    (E2 80 AF), U+205F (E2 81 9F), U+3000 (E3 80 80) and U+FEFF
    (EF BB BF). *)
Definition is_space3 (c d e : ascii) : bool :=
  let c := nat_of_ascii c in
  let d := nat_of_ascii d in
  let e := nat_of_ascii e in
  (Nat.eqb c 225 && Nat.eqb d 154 && Nat.eqb e 128)
  || (Nat.eqb c 226 && Nat.eqb d 128
      && ((Nat.leb 128 e && Nat.leb e 138)
          || Nat.eqb e 168 || Nat.eqb e 169 || Nat.eqb e 175))
  || (Nat.eqb c 226 && Nat.eqb d 129 && Nat.eqb e 159)
  || (Nat.eqb c 227 && Nat.eqb d 128 && Nat.eqb e 128)
  || (Nat.eqb c 239 && Nat.eqb d 187 && Nat.eqb e 191).

(** The number of bytes of the character whose first byte is [c]. *)
Definition utf8_length (c : ascii) : nat :=
  let n := nat_of_ascii c in
  if Nat.ltb n 192 then 1
  else if Nat.ltb n 224 then 2
  else if Nat.ltb n 240 then 3
  else 4.

(** The characters of [s] that [/\s/] does not match, read from a point
    where [k] bytes of a character that is kept are still to come. *)
Fixpoint strip_from (k : nat) (s : string) : string :=
  match s with
  | EmptyString => EmptyString
  | String c r =>
      match k with
      | S k' => String c (strip_from k' r)
      | O =>
          if is_space c then strip_from 0 r else
          match r with
          | String d r2 =>
              if is_space2 c d then strip_from 0 r2 else
              match r2 with
              | String e r3 =>
                  if is_space3 c d e then strip_from 0 r3
                  else String c (strip_from (utf8_length c - 1) r)
              | EmptyString => String c (strip_from (utf8_length c - 1) r)
              end
          | EmptyString => String c EmptyString
          end
      end
  end.

(** [s.replace(/\s+/g, '')] *)
Definition strip_whitespace (s : string) : string := strip_from 0 s.

(** [s.split('/')[0]] *)
Fixpoint before_slash (s : string) : string :=
  match s with
  | EmptyString => EmptyString
  | String c r => if Ascii.eqb c "/" then EmptyString
                  else String c (before_slash r)
  end.

Definition upper_ascii (c : ascii) : ascii :=
  let n := nat_of_ascii c in
  if Nat.leb 97 n && Nat.leb n 122 then ascii_of_nat (n - 32) else c.

(** [s.toUpperCase()] on the ASCII range, which is all a mime type uses. *)
Fixpoint toUpperCase (s : string) : string :=
  match s with
  | EmptyString => EmptyString
  | String c r => String (upper_ascii c) (toUpperCase r)
  end.

(** [`${n}`] for a non-negative integer. *)
Definition string_of_N (n : N) : string :=
  NilEmpty.string_of_uint (N.to_uint n).

(** [list.includes(p)] on an array of strings. *)
Definition includes (l : list string) (p : string) : bool :=
  existsb (String.eqb p) l.

(** ** Collaborators that only answer *)

(** What the service reads from its surroundings.  None of these is part
    of the service: the crawler, Node's [fs] and [path], the [mime] package,
    the [mimeTypes] table and the crypto repository are taken as given.
    [fs_stat n p] is the outcome of the [n]-th call of [fs.promises.stat]
    made so far, so that each call can hand back objects of its own. *)
Record Env : Type := mkEnv {
  libraryRepository_getById : string -> Result LibraryEntity;
  crawler_findAllMedia : list string -> Result (list string);
  getByLibraryId_fault : list string -> option Exception;
  fs_stat : nat -> string -> Result Stats;
  fs_access : string -> bool;
  mime_lookup : string -> option string;
  mimeTypes_isAsset : string -> bool;
  cryptoRepository_hashFile : string -> Result string;
  path_normalize : string -> string;
  path_basename : string -> string;
  path_parse_name : string -> string
}.

(** ** The world the service acts on *)

Inductive Call : Type :=
| CallGetLibrary (libraryId : string)
| CallLoggerError (message : string)
| CallCrawl (pathsToCrawl : list string)
| CallGetByLibraryId (ids : list string)
| CallGetByPath (libraryId path : string)
| CallStat (path : string)
| CallUpdate (assetId : nat) (offline : bool)
| CallRemove (assetId : nat)
| CallMimeLookup (path : string)
| CallIsAsset (path : string)
| CallHashFile (path : string)
| CallAccess (path : string)
| CallCreate (path : string)
| CallQueue (item : JobItem).

Record World : Type := mkWorld {
  catalog : list AssetEntity;
  nextAssetId : nat;
  queue : list JobItem;
  statCalls : nat;
  trace : list Call
}.

Definition M (A : Type) : Type := World -> Result A * World.

Definition ret {A} (a : A) : M A := fun w => (Ok a, w).

Definition throw {A} (e : Exception) : M A := fun w => (Throw e, w).

Definition bind {A B} (m : M A) (k : A -> M B) : M B :=
  fun w => match m w with
           | (Ok a, w') => k a w'
           | (Throw e, w') => (Throw e, w')
           end.

Notation "x <- m ;; k" := (bind m (fun x => k))
  (at level 61, m at next level, right associativity).
Notation "m ;;; k" := (bind m (fun _ => k))
  (at level 61, right associativity).

Definition logCall (c : Call) : M unit :=
  fun w => (Ok tt, mkWorld (catalog w) (nextAssetId w) (queue w)
                           (statCalls w) (trace w ++ [c])).

(** [for (const x of l) { await body(x) }] *)
Fixpoint forEach {A} (l : list A) (body : A -> M unit) : M unit :=
  match l with
  | [] => ret tt
  | x :: r => body x ;;; forEach r body
  end.

(** ** The asset catalog and the job queue *)

Definition matches_path (lib p : string) (a : AssetEntity) : bool :=
  String.eqb (library a) lib && String.eqb (originalPath a) p.

(** Modelled from the spec: the catalog accessor [IAssetRepository] is not
    part of the service; section 6 of the specification gives its
    operations.  [getAssetByLibraryAndPath(libraryId, path)] answers with an
    asset or none: the first row of the library stored under the path. *)
Definition assetRepository_getByLibraryIdAndOriginalPath
    (lib p : string) : M (option AssetEntity) :=
  logCall (CallGetByPath lib p) ;;;
  fun w => (Ok (find (matches_path lib p) (catalog w)), w).

(** Modelled from the spec: [getAssetsByLibrary(libraryIds)] answers with
    the list of the rows of these libraries, unless the fetch fails. *)
Definition assetRepository_getByLibraryId
    (env : Env) (ids : list string) : M (list AssetEntity) :=
  logCall (CallGetByLibraryId ids) ;;;
  match getByLibraryId_fault env ids with
  | Some e => throw e
  | None =>
      fun w => (Ok (filter (fun a => includes ids (library a)) (catalog w)), w)
  end.

(** Modelled from the spec: [createAsset(fields)] stores a new row and
    answers with it; the catalog chooses the id of the row. *)
Definition assetRepository_create
    (fields : nat -> AssetEntity) : M AssetEntity :=
  fun w =>
    let row := fields (nextAssetId w) in
    (Ok row,
     mkWorld (catalog w ++ [row]) (S (nextAssetId w)) (queue w)
             (statCalls w) (trace w ++ [CallCreate (originalPath row)])).

(** Modelled from the spec: [updateAsset(id, partialFields)], for the one
    partial entity the service sends, [{ id, isOffline }]. *)
Definition assetRepository_update (assetId : nat) (offline : bool) : M unit :=
  fun w =>
    (Ok tt,
     mkWorld (map (fun a => if Nat.eqb (id a) assetId
                            then set_isOffline offline a else a) (catalog w))
             (nextAssetId w) (queue w) (statCalls w)
             (trace w ++ [CallUpdate assetId offline])).

(** Modelled from the spec: [deleteAsset(id)], reached through
    [remove(entity)]. *)
Definition assetRepository_remove (a : AssetEntity) : M unit :=
  fun w =>
    (Ok tt,
     mkWorld (filter (fun r => negb (Nat.eqb (id r) (id a))) (catalog w))
             (nextAssetId w) (queue w) (statCalls w)
             (trace w ++ [CallRemove (id a)])).

(** [jobRepository.queue(item)]: the job is appended to the queue. *)
Definition jobRepository_queue (item : JobItem) : M unit :=
  fun w =>
    (Ok tt,
     mkWorld (catalog w) (nextAssetId w) (queue w ++ [item]) (statCalls w)
             (trace w ++ [CallQueue item])).

(** ** Collaborators, as awaited by the service *)

Definition liftResult {A} (r : Result A) : M A :=
  match r with Ok a => ret a | Throw e => throw e end.

Definition libraryRepository_getById_ (env : Env) (libId : string)
    : M LibraryEntity :=
  logCall (CallGetLibrary libId) ;;;
  liftResult (libraryRepository_getById env libId).

Definition crawler_findAllMedia_ (env : Env) (pathsToCrawl : list string)
    : M (list string) :=
  logCall (CallCrawl pathsToCrawl) ;;;
  liftResult (crawler_findAllMedia env pathsToCrawl).

(** [fs.promises.stat(p)] inside [try]: the outcome is handed to the caller
    as a value, the [catch] branch being the [Throw] case. *)
Definition fs_promises_stat (env : Env) (p : string) : M (Result Stats) :=
  fun w =>
    (Ok (fs_stat env (statCalls w) p),
     mkWorld (catalog w) (nextAssetId w) (queue w) (S (statCalls w))
             (trace w ++ [CallStat p])).

Definition mime_lookup_ (env : Env) (p : string) : M (option string) :=
  logCall (CallMimeLookup p) ;;; ret (mime_lookup env p).

Definition mimeTypes_isAsset_ (env : Env) (p : string) : M bool :=
  logCall (CallIsAsset p) ;;; ret (mimeTypes_isAsset env p).

Definition cryptoRepository_hashFile_ (env : Env) (p : string) : M string :=
  logCall (CallHashFile p) ;;; liftResult (cryptoRepository_hashFile env p).

(** [fs.promises.access(p, R_OK)] inside [try]: [true] when it resolves. *)
Definition fs_promises_access (env : Env) (p : string) : M bool :=
  logCall (CallAccess p) ;;; ret (fs_access env p).

(** ** The ingest worker *)

(** The value of [doImport] when it is tested. *)
Definition doImport (job : ILibraryJob) (existingAssetEntity : option AssetEntity)
    (stats : Stats) : bool :=
  let doImport := false in
  let doImport := if forceRefresh job then true else doImport in
  match existingAssetEntity with
  | None => true
  | Some e =>
      if strict_neq (mtime stats) (fileModifiedAt e) then true else doImport
  end.

Arguments doImport : simpl never.

(** [mimeType.split('/')[0].toUpperCase() as AssetType] *)
Definition assetTypeOf (mimeType : string) : AssetType :=
  toUpperCase (before_slash mimeType).

(** The object literal handed to [assetRepository.create]. *)
Definition newAsset (env : Env) (job : ILibraryJob) (stats : Stats)
    (checksum mimeType : string) (sidecarPath : option string)
    (newId : nat) : AssetEntity :=
  mkAsset newId (ownerId job) (libraryId job) checksum (assetPath job)
    (strip_whitespace
       (path_basename env (assetPath job) ++ "-" ++ string_of_N (size stats))%string)
    "Library Import" (ctime stats) (mtime stats) (assetTypeOf mimeType)
    false false None true None None None None None [] []
    (path_parse_name env (assetPath job)) [] sidecarPath true false.

Definition handleRefreshAsset (env : Env) (job : ILibraryJob) : M bool :=
  existingAssetEntity <-
    assetRepository_getByLibraryIdAndOriginalPath (libraryId job) (assetPath job) ;;
  statted <- fs_promises_stat env (assetPath job) ;;
  match statted with
  | Throw error =>
      match existingAssetEntity with
      | Some e => assetRepository_update (id e) true ;;; ret true
      | None => throw (BadRequestExceptionOf error "Can't access file")
      end
  | Ok stats =>
      (match existingAssetEntity with
       | Some e => if isOffline e then assetRepository_update (id e) false
                   else ret tt
       | None => ret tt
       end) ;;;
      if negb (doImport job existingAssetEntity stats) then ret true else
      mimeType <- mime_lookup_ env (assetPath job) ;;
      match mimeType with
      | None =>
          throw (Error ("Cannot determine mime type of asset: "
                        ++ assetPath job)%string)
      | Some mimeType =>
          if String.eqb mimeType EmptyString
          then throw (Error ("Cannot determine mime type of asset: "
                             ++ assetPath job)%string)
          else
          supported <- mimeTypes_isAsset_ env (assetPath job) ;;
          if negb supported
          then throw (BadRequestException
                        ("Unsupported file type " ++ mimeType)%string)
          else
          checksum <- cryptoRepository_hashFile_ env (assetPath job) ;;
          readable <- fs_promises_access env (assetPath job ++ ".xmp")%string ;;
          let sidecarPath :=
            if readable then Some (assetPath job ++ ".xmp")%string else None in
          addedAsset <-
            assetRepository_create
              (newAsset env job stats checksum mimeType sidecarPath) ;;
          jobRepository_queue (METADATA_EXTRACTION (id addedAsset) "upload") ;;;
          (if String.eqb (type addedAsset) AssetType_VIDEO
           then jobRepository_queue (VIDEO_CONVERSION (id addedAsset))
           else ret tt) ;;;
          ret true
      end
  end.

(** ** The offline worker *)

Definition handleOfflineAsset (job : ILibraryJob) : M bool :=
  existingAssetEntity <-
    assetRepository_getByLibraryIdAndOriginalPath (libraryId job) (assetPath job) ;;
  match existingAssetEntity with
  | None =>
      throw (BadRequestException
               ("Asset does not exist in database: " ++ assetPath job)%string)
  | Some e =>
      (if emptyTrash job then assetRepository_remove e
       else assetRepository_update (id e) true) ;;;
      ret true
  end.

(** ** The reconciler *)

Definition refresh (env : Env) (authUser : AuthUserDto) (libId : string)
    (dto : RefreshLibraryDto) : M unit :=
  lib <- libraryRepository_getById_ env libId ;;
  if negb (LibraryType_eqb (library_type lib) IMPORT) then
    logCall (CallLoggerError "Only imported libraries can be refreshed") ;;;
    throw (InternalServerErrorException
             "Only imported libraries can be refreshed")
  else
  found <- crawler_findAllMedia_ env (importPaths lib) ;;
  let crawledAssetPaths := map (path_normalize env) found in
  forEach crawledAssetPaths (fun assetPath =>
    jobRepository_queue
      (REFRESH_LIBRARY_FILE
         (mkJob (path_normalize env assetPath) (auth_id authUser) libId
                (orFalse (dto_forceRefresh dto))
                (orFalse (dto_emptyTrash dto))))) ;;;
  assetsInLibrary <- assetRepository_getByLibraryId env [libId] ;;
  let offlineAssets :=
    filter (fun assetPath => negb (includes crawledAssetPaths assetPath))
           (map (path_normalize env) (map originalPath assetsInLibrary)) in
  forEach offlineAssets (fun offlineAssetPath =>
    jobRepository_queue
      (OFFLINE_LIBRARY_FILE
         (mkJob offlineAssetPath (auth_id authUser) libId false
                (orFalse (dto_emptyTrash dto))))).

(** ** A sample installation

    Concrete collaborators on which the service can be run: a disk given
    as a list of files with their modification instants, a crawler with a
    fixed answer, and small stand-ins for Node's [path] functions and for
    the mime tables. *)

(** Runs of ['/'] collapse to one, as [path.normalize] does. *)
Fixpoint squeeze_slashes (s : string) : string :=
  match s with
  | EmptyString => EmptyString
  | String c r =>
      match r with
      | String d _ =>
          if Ascii.eqb c "/" && Ascii.eqb d "/" then squeeze_slashes r
          else String c (squeeze_slashes r)
      | EmptyString => String c EmptyString
      end
  end.

Fixpoint contains_char (x : ascii) (s : string) : bool :=
  match s with
  | EmptyString => false
  | String c r => Ascii.eqb c x || contains_char x r
  end.

(** The part after the last ['/']. *)
Fixpoint sample_basename (s : string) : string :=
  match s with
  | EmptyString => EmptyString
  | String c r =>
      if contains_char "/" r then sample_basename r
      else if Ascii.eqb c "/" then r else s
  end.

(** The part before the last ['.']. *)
Fixpoint drop_extension (s : string) : string :=
  match s with
  | EmptyString => EmptyString
  | String c r =>
      if Ascii.eqb c "." && negb (contains_char "." r) then EmptyString
      else String c (drop_extension r)
  end.

Fixpoint ends_with (suffix s : string) : bool :=
  String.eqb s suffix ||
  match s with
  | EmptyString => false
  | String _ r => ends_with suffix r
  end.

Definition sample_mime (p : string) : option string :=
  if ends_with ".jpg" p then Some "image/jpeg"
  else if ends_with ".mp4" p then Some "video/mp4"
  else if ends_with ".mp3" p then Some "audio/mpeg"
  else if ends_with ".txt" p then Some "text/plain"
  else None.

Definition sample_isAsset (p : string) : bool :=
  ends_with ".jpg" p || ends_with ".mp4" p.

Fixpoint disk_lookup (disk : list (string * Z)) (p : string) : option Z :=
  match disk with
  | [] => None
  | (q, ms) :: r => if String.eqb q p then Some ms else disk_lookup r p
  end.

(** Every call of [stat] builds a [Stats] object with [Date] objects of
    its own: the [n]-th call hands out the identities [1000 + 2n] and
    [1001 + 2n]. *)
Definition sample_stat (disk : list (string * Z)) (n : nat) (p : string)
    : Result Stats :=
  match disk_lookup disk p with
  | Some ms => Ok (mkStats 100 (mkDate (1000 + 2 * n) ms)
                           (mkDate (1001 + 2 * n) ms))
  | None => Throw (Error "ENOENT: no such file or directory")
  end.

Definition sampleEnv (libs : list LibraryEntity) (disk : list (string * Z))
    (crawl : Result (list string)) (fault : option Exception) : Env :=
  mkEnv
    (fun i => match find (fun l => String.eqb (library_id l) i) libs with
              | Some l => Ok l
              | None => Throw (NotFoundException "Library Not Found")
              end)
    (fun _ => crawl)
    (fun _ => fault)
    (sample_stat disk)
    (fun p => match disk_lookup disk p with Some _ => true | None => false end)
    sample_mime
    sample_isAsset
    (fun p => Ok ("sha1:" ++ p)%string)
    squeeze_slashes
    sample_basename
    (fun p => drop_extension (sample_basename p)).

Definition emptyWorld : World := mkWorld [] 1 [] 0 [].

(** A catalog row as the ingest worker writes it, for building catalogs
    by hand. *)
Definition sampleAsset (i : nat) (lib p : string) (modified : JsDate)
    (offline : bool) : AssetEntity :=
  mkAsset i "user-1" lib ("sha1:" ++ p)%string p
    (strip_whitespace (sample_basename p ++ "-100")%string) "Library Import"
    modified modified (assetTypeOf
                         (match sample_mime p with Some m => m | None => "" end))
    false false None true None None None None None [] []
    (drop_extension (sample_basename p)) [] None true offline.

(** ** Counting what a pass emits *)

Definition isRefreshJobFor (p : string) (j : JobItem) : bool :=
  match j with
  | REFRESH_LIBRARY_FILE d => String.eqb (assetPath d) p
  | _ => false
  end.

Definition isOfflineJobFor (p : string) (j : JobItem) : bool :=
  match j with
  | OFFLINE_LIBRARY_FILE d => String.eqb (assetPath d) p
  | _ => false
  end.

Definition refreshJobsFor (p : string) (q : list JobItem) : nat :=
  length (filter (isRefreshJobFor p) q).

Definition offlineJobsFor (p : string) (q : list JobItem) : nat :=
  length (filter (isOfflineJobFor p) q).

Definition isHashCall (c : Call) : bool :=
  match c with CallHashFile _ => true | _ => false end.

Definition isCreateCall (c : Call) : bool :=
  match c with CallCreate _ => true | _ => false end.

(** The rows the catalog holds for a path of a library. *)
Definition rowsFor (lib p : string) (w : World) : list AssetEntity :=
  filter (matches_path lib p) (catalog w).

(** The update that [assetRepository.update({ id, isOffline })] applies
    to each row. *)
Definition markRow (assetId : nat) (offline : bool) (a : AssetEntity)
    : AssetEntity :=
  if Nat.eqb (id a) assetId then set_isOffline offline a else a.

(** The refresh job of one crawled path. *)
Definition refreshJobOf (env : Env) (authUser : AuthUserDto) (libId : string)
    (dto : RefreshLibraryDto) (p : string) : JobItem :=
  REFRESH_LIBRARY_FILE
    (mkJob (path_normalize env p) (auth_id authUser) libId
           (orFalse (dto_forceRefresh dto)) (orFalse (dto_emptyTrash dto))).

(** The offline job of one catalog path. *)
Definition offlineJobOf (authUser : AuthUserDto) (libId : string)
    (dto : RefreshLibraryDto) (p : string) : JobItem :=
  OFFLINE_LIBRARY_FILE
    (mkJob p (auth_id authUser) libId false (orFalse (dto_emptyTrash dto))).

(** The normalized paths of the rows of a library. *)
Definition catalogPathsOf (env : Env) (libId : string) (w : World)
    : list string :=
  map (path_normalize env)
      (map originalPath
           (filter (fun a => includes [libId] (library a)) (catalog w))).

(** The claim that every pass hands out exactly one job per path. *)
Definition one_job_per_path (env : Env) (authUser : AuthUserDto)
    (libId : string) (dto : RefreshLibraryDto) (w : World) : Prop :=
  forall lib found w',
    libraryRepository_getById env libId = Ok lib ->
    crawler_findAllMedia env (importPaths lib) = Ok found ->
    refresh env authUser libId dto w = (Ok tt, w') ->
    let crawled := map (path_normalize env) found in
    let emitted := skipn (length (queue w)) (queue w') in
    (forall p, In p crawled -> refreshJobsFor p emitted = 1) /\
    (forall p, In p (catalogPathsOf env libId w) -> ~ In p crawled ->
               offlineJobsFor p emitted = 1) /\
    (forall p, In p crawled -> In p (catalogPathsOf env libId w) ->
               offlineJobsFor p emitted = 0).

(** The claim that a pass whose crawl or catalog fetch fails has emitted
    no job. *)
Definition failed_pass_emits_nothing (env : Env) (authUser : AuthUserDto)
    (libId : string) (dto : RefreshLibraryDto) (w : World) : Prop :=
  forall lib,
    libraryRepository_getById env libId = Ok lib ->
    (exists e, crawler_findAllMedia env (importPaths lib) = Throw e) \/
    (exists e, getByLibraryId_fault env [libId] = Some e) ->
    queue (snd (refresh env authUser libId dto w)) = queue w.

(** ** Sample runs

    A library [photos] over [/media], an upload library, and the catalogs
    and disks the examples below run on. *)

Definition photos : LibraryEntity :=
  mkLibrary "lib-1" "user-1" "Photos" IMPORT ["/media"] true.

Definition nested : LibraryEntity :=
  mkLibrary "lib-3" "user-1" "Nested" IMPORT ["/media"; "/media/2023"] true.

Definition uploads : LibraryEntity :=
  mkLibrary "lib-2" "user-1" "Uploads" UPLOAD [] true.

Definition alice : AuthUserDto := mkAuth "user-1".

Definition defaults : RefreshLibraryDto := mkDto None None.

Definition jobFor (p : string) (force trash : bool) : ILibraryJob :=
  mkJob p "user-1" "lib-1" force trash.

(** The disk holds [a.jpg] and [c.mp4]; the catalog knows [b.jpg], which
    is gone, and [c.mp4]. *)
Definition mediaDisk : list (string * Z) :=
  [("/media/a.jpg", 5000%Z); ("/media/c.mp4", 6000%Z)].

Definition mediaWorld : World :=
  mkWorld [sampleAsset 1 "lib-1" "/media/b.jpg" (mkDate 7 4000) false;
           sampleAsset 2 "lib-1" "/media/c.mp4" (mkDate 8 6000) false]
          3 [] 0 [].

Definition mediaEnv : Env :=
  sampleEnv [photos; uploads] mediaDisk
            (Ok ["/media//a.jpg"; "/media/c.mp4"]) None.

(** The same installation with a catalog fetch that fails. *)
Definition faultyEnv : Env :=
  sampleEnv [photos; uploads] mediaDisk
            (Ok ["/media//a.jpg"; "/media/c.mp4"])
            (Some (CollaboratorError "Connection terminated unexpectedly")).

(** The same installation with a crawl that fails. *)
Definition blindEnv : Env :=
  sampleEnv [photos; uploads] mediaDisk
            (Throw (CollaboratorError "EACCES: permission denied")) None.

(** Two import paths, one inside the other: the crawl reports the file
    below both once per import path.  The catalog holds two rows for
    [b.jpg], which is gone from the disk. *)
Definition nestedEnv : Env :=
  sampleEnv [nested] [("/media/2023/a.jpg", 5000%Z)]
            (Ok ["/media/2023/a.jpg"; "/media/2023/a.jpg"]) None.

Definition nestedWorld : World :=
  mkWorld [sampleAsset 1 "lib-3" "/media/b.jpg" (mkDate 7 4000) false;
           sampleAsset 2 "lib-3" "/media/b.jpg" (mkDate 9 4000) false]
          3 [] 0 [].

(** A file that has not changed since it was imported: the row of
    [a.jpg] holds the instant 5000 that the disk reports, in a [Date]
    object read from the catalog, which is not the object a later [stat]
    builds. *)
Definition unchangedWorld : World :=
  mkWorld [sampleAsset 1 "lib-1" "/media/a.jpg" (mkDate 7 5000) false]
          2 [] 0 [].

(** A file that has changed since it was imported: the row holds the
    instant 4000, the disk reports 5000. *)
Definition changedWorld : World :=
  mkWorld [sampleAsset 1 "lib-1" "/media/a.jpg" (mkDate 7 4000) false]
          2 [] 0 [].

(** An asset that was marked offline and whose file is back. *)
Definition returnedWorld : World :=
  mkWorld [sampleAsset 1 "lib-1" "/media/a.jpg" (mkDate 7 4000) true]
          2 [] 0 [].

(** A catalog whose row of [a.jpg] holds the very [Date] object that the
    next [stat] hands out, as a catalog and a file system that share their
    objects produce it. *)
Definition sharedWorld : World :=
  mkWorld [sampleAsset 1 "lib-1" "/media/a.jpg" (mkDate 1000 5000) true]
          2 [] 0 [].

(** ** What a run of a worker leaves behind *)

(** The catalog after the ingest worker has looked at the offline flag of
    the asset it found. *)
Definition clearedCatalog (existing : option AssetEntity)
    (cat : list AssetEntity) : list AssetEntity :=
  match existing with
  | Some e => if isOffline e then map (markRow (id e) false) cat else cat
  | None => cat
  end.

(** The calls of that step. *)
Definition clearCalls (existing : option AssetEntity) : list Call :=
  match existing with
  | Some e => if isOffline e then [CallUpdate (id e) false] else []
  | None => []
  end.

(** The jobs the ingest worker queues for a row it has stored. *)
Definition followOnJobs (row : AssetEntity) : list JobItem :=
  METADATA_EXTRACTION (id row) "upload"
    :: (if String.eqb (type row) AssetType_VIDEO
        then [VIDEO_CONVERSION (id row)] else []).

Definition isFollowOn (j : JobItem) : bool :=
  match j with
  | METADATA_EXTRACTION _ _ | VIDEO_CONVERSION _ => true
  | _ => false
  end.

(** The value of [sidecarPath] after the [try] around [fs.promises.access]. *)
Definition sidecarOf (env : Env) (p : string) : option string :=
  if fs_access env (p ++ ".xmp")%string then Some (p ++ ".xmp")%string
  else None.

(** Whether [/\s/] matches in [s], read as [strip_from] reads. *)
Fixpoint has_space_from (k : nat) (s : string) : bool :=
  match s with
  | EmptyString => false
  | String c r =>
      match k with
      | S k' => has_space_from k' r
      | O =>
          if is_space c then true else
          match r with
          | String d r2 =>
              if is_space2 c d then true else
              match r2 with
              | String e _ =>
                  if is_space3 c d e then true
                  else has_space_from (utf8_length c - 1) r
              | EmptyString => has_space_from (utf8_length c - 1) r
              end
          | EmptyString => false
          end
      end
  end.

Definition has_space (s : string) : bool := has_space_from 0 s.

(** Strings of ASCII characters other than white space. *)
Fixpoint plain (t : string) : bool :=
  match t with
  | EmptyString => true
  | String c r =>
      Nat.ltb (nat_of_ascii c) 128 && negb (is_space c) && plain r
  end.

(** The data of a library job in the queue, if the item is one. *)
Definition libraryJobOf (j : JobItem) : option ILibraryJob :=
  match j with
  | REFRESH_LIBRARY_FILE d | OFFLINE_LIBRARY_FILE d => Some d
  | _ => None
  end.

(** ** Library management

    The methods of the service that read and write libraries.  They are
    written against the injected [ILibraryRepository] and against
    [mapLibrary], which turns an entity into the response handed to the
    caller; both are taken as given.  A read leaves the store as it is; a
    write hands back the new store. *)

Record NewLibrary : Type := mkNewLibrary {
  new_owner : string;
  new_name : string;
  new_assets : list AssetEntity;
  new_type : LibraryType;
  new_importPaths : list string;
  new_isVisible : bool
}.

Record CreateLibraryDto : Type := mkCreateDto {
  create_name : string;
  create_libraryType : LibraryType;
  create_isVisible : option bool
}.

Record GetLibrariesDto : Type := mkGetLibrariesDto {
  filter_assetId : option string
}.

Record SetImportPathsDto : Type := mkSetImportPathsDto {
  set_importPaths : list string
}.

Record ILibraryRepository (Store : Type) : Type := mkLibraryRepository {
  repo_getCountForUser : string -> Store -> Result nat;
  repo_get : string -> Store -> Result (option LibraryEntity);
  repo_getById : string -> Store -> Result LibraryEntity;
  repo_getAllByUserId : string -> Store -> Result (list LibraryEntity);
  repo_create : NewLibrary -> Store -> Result LibraryEntity * Store;
  repo_setImportPaths :
    string -> list string -> Store -> Result LibraryEntity * Store
}.

(** What the library methods are wired to: the repository, [mapLibrary]
    and the [type] member of its result. *)
Record LibraryDeps (Store Response : Type) : Type := mkLibraryDeps {
  libraryRepository : ILibraryRepository Store;
  mapLibrary : LibraryEntity -> Response;
  response_type : Response -> LibraryType
}.

Definition LM (Store A : Type) : Type := Store -> Result A * Store.

Definition readStore {Store A} (read : Store -> Result A) : LM Store A :=
  fun s => (read s, s).

Definition lbind {Store A B} (m : LM Store A) (k : A -> LM Store B)
    : LM Store B :=
  fun s => match m s with
           | (Ok a, s') => k a s'
           | (Throw e, s') => (Throw e, s')
           end.

Definition lret {Store A} (a : A) : LM Store A := fun s => (Ok a, s).

Definition lthrow {Store A} (e : Exception) : LM Store A :=
  fun s => (Throw e, s).

(** [x ?? true] *)
Definition orTrue (x : option bool) : bool :=
  match x with Some b => b | None => true end.

(** The truthiness of an optional string: [undefined] and [''] are falsy. *)
Definition truthy (x : option string) : bool :=
  match x with
  | Some s => negb (String.eqb s EmptyString)
  | None => false
  end.

Definition getCount {Store Response} (deps : LibraryDeps Store Response)
    (authUser : AuthUserDto) : LM Store nat :=
  readStore (repo_getCountForUser (libraryRepository deps) (auth_id authUser)).

Definition get {Store Response} (deps : LibraryDeps Store Response)
    (authUser : AuthUserDto) (libId : string) : LM Store Response :=
  lbind (readStore (repo_get (libraryRepository deps) libId)) (fun lib =>
  match lib with
  | None => lthrow (NotFoundException "Library Not Found")
  | Some lib => lret (mapLibrary deps lib)
  end).

Definition create {Store Response} (deps : LibraryDeps Store Response)
    (authUser : AuthUserDto) (dto : CreateLibraryDto) : LM Store Response :=
  lbind (repo_create (libraryRepository deps)
           (mkNewLibrary (auth_id authUser) (create_name dto) []
              (create_libraryType dto) [] (orTrue (create_isVisible dto))))
        (fun libraryEntity => lret (mapLibrary deps libraryEntity)).

Definition getAll {Store Response} (deps : LibraryDeps Store Response)
    (authUser : AuthUserDto) (dto : GetLibrariesDto)
    : LM Store (list Response) :=
  if truthy (filter_assetId dto)
  then lthrow (BadRequestException "Not implemented yet")
  else
  lbind (readStore (repo_getAllByUserId (libraryRepository deps)
                      (auth_id authUser)))
        (fun libraries => lret (map (mapLibrary deps) libraries)).

Definition getLibraryById {Store Response} (deps : LibraryDeps Store Response)
    (authUser : AuthUserDto) (libId : string) : LM Store Response :=
  lbind (readStore (repo_getById (libraryRepository deps) libId))
        (fun libraryEntity => lret (mapLibrary deps libraryEntity)).

Definition getImportPaths {Store Response} (deps : LibraryDeps Store Response)
    (authUser : AuthUserDto) (libId : string) : LM Store (list string) :=
  lbind (readStore (repo_getById (libraryRepository deps) libId))
        (fun libraryEntity => lret (importPaths libraryEntity)).

Definition setImportPaths {Store Response} (deps : LibraryDeps Store Response)
    (authUser : AuthUserDto) (libId : string) (dto : SetImportPathsDto)
    : LM Store Response :=
  lbind (getLibraryById deps authUser libId) (fun libraryEntity =>
  if negb (LibraryType_eqb (response_type deps libraryEntity) IMPORT)
  then lthrow (BadRequestException
                 "Can only set import paths on an Import type library")
  else
  lbind (repo_setImportPaths (libraryRepository deps) libId
           (set_importPaths dto))
        (fun updatedEntity => lret (mapLibrary deps updatedEntity))).

(** *** A repository in memory *)

Definition hasLibraryId (i : string) (l : LibraryEntity) : bool :=
  String.eqb (library_id l) i.

Definition withImportPaths (paths : list string) (l : LibraryEntity)
    : LibraryEntity :=
  mkLibrary (library_id l) (library_owner l) (library_name l)
            (library_type l) paths (library_isVisible l).

(** Modelled from the spec: [getLibrary(id)] answers with the library or
    with not-found. *)
Definition memory_getById (i : string) (s : list LibraryEntity)
    : Result LibraryEntity :=
  match find (hasLibraryId i) s with
  | Some l => Ok l
  | None => Throw (NotFoundException "Library Not Found")
  end.

(** Modelled from the spec: [setLibraryImportPaths(libraryId, paths)]
    stores the paths in the library and answers with the library. *)
Definition memory_setImportPaths (i : string) (paths : list string)
    (s : list LibraryEntity) : Result LibraryEntity * list LibraryEntity :=
  match find (hasLibraryId i) s with
  | Some l =>
      (Ok (withImportPaths paths l),
       map (fun x => if hasLibraryId i x then withImportPaths paths x else x) s)
  | None => (Throw (NotFoundException "Library Not Found"), s)
  end.

(** The remaining operations are not described by the specification; the
    memory repository lists and counts by owner and numbers new libraries
    by the size of the store. *)
Definition memoryRepository : ILibraryRepository (list LibraryEntity) :=
  mkLibraryRepository
    (fun u s =>
       Ok (length (filter (fun l => String.eqb (library_owner l) u) s)))
    (fun i s => Ok (find (hasLibraryId i) s))
    memory_getById
    (fun u s => Ok (filter (fun l => String.eqb (library_owner l) u) s))
    (fun n s =>
       let l := mkLibrary ("lib-" ++ string_of_N (N.of_nat (S (length s))))
                          (new_owner n) (new_name n) (new_type n)
                          (new_importPaths n) (new_isVisible n) in
       (Ok l, s ++ [l]))
    memory_setImportPaths.

(** A [mapLibrary] that hands the entity back as the response. *)
Definition memoryDeps : LibraryDeps (list LibraryEntity) LibraryEntity :=
  mkLibraryDeps memoryRepository (fun l => l) library_type.

(** The collaborators [env] with the library lookup of the reconciler
    answered from the store [s]. *)
Definition withLibraries (env : Env) (s : list LibraryEntity) : Env :=
  mkEnv (fun i => memory_getById i s)
        (crawler_findAllMedia env) (getByLibraryId_fault env) (fs_stat env)
        (fs_access env) (mime_lookup env) (mimeTypes_isAsset env)
        (cryptoRepository_hashFile env) (path_normalize env)
        (path_basename env) (path_parse_name env).

(** ** More sample runs *)

(** A disk with a file of unknown type, a text file, a photo with a blank
    in its name and a photo with its sidecar. *)
Definition clutteredDisk : list (string * Z) :=
  [("/media/notes.xyz", 7000%Z); ("/media/readme.txt", 7100%Z);
   ("/media/my photo.jpg", 7200%Z); ("/media/a.jpg", 5000%Z);
   ("/media/a.jpg.xmp", 5000%Z)].

Definition clutteredEnv : Env :=
  sampleEnv [photos; uploads] clutteredDisk (Ok []) None.

(** A catalog row whose stored path is not in normal form. *)
Definition unnormalizedWorld : World :=
  mkWorld [sampleAsset 1 "lib-1" "/media//b.jpg" (mkDate 7 4000) false]
          2 [] 0 [].

(** A file name with a blank, a no-break space (U+00A0) and a narrow
    no-break space (U+202F) in it. *)
Definition nbsp : string :=
  String (ascii_of_nat 194) (String (ascii_of_nat 160) EmptyString).

Definition nnbsp : string :=
  String (ascii_of_nat 226)
    (String (ascii_of_nat 128) (String (ascii_of_nat 175) EmptyString)).

Definition spacedPath : string :=
  ("/media/my" ++ nbsp ++ "pho" ++ nnbsp ++ "to 1.jpg")%string.

Definition spacedEnv : Env :=
  sampleEnv [photos; uploads] [(spacedPath, 7200%Z)] (Ok []) None.

(** * Properties *)

(** ** The monad and the loops *)

Lemma world_eta (w : World) :
  mkWorld (catalog w) (nextAssetId w) (queue w) (statCalls w) (trace w) = w.
Proof. destruct w; reflexivity. Qed.

Lemma forEach_queue {A} (f : A -> JobItem) (l : list A) (w : World) :
  forEach l (fun x => jobRepository_queue (f x)) w =
  (Ok tt,
   mkWorld (catalog w) (nextAssetId w) (queue w ++ map f l) (statCalls w)
           (trace w ++ map (fun x => CallQueue (f x)) l)).
Proof.
  revert w; induction l as [|x l IH]; intro w; simpl.
  - unfold ret. now rewrite !app_nil_r, world_eta.
  - unfold bind, jobRepository_queue at 1. rewrite IH; simpl.
    now rewrite <- !app_assoc.
Qed.

Lemma LibraryType_eqb_eq (a b : LibraryType) :
  LibraryType_eqb a b = true <-> a = b.
Proof. destruct a, b; simpl; split; congruence. Qed.

(** ** Rows and updates *)

Lemma matches_path_markRow lib p i b a :
  matches_path lib p (markRow i b a) = matches_path lib p a.
Proof. unfold markRow; destruct (Nat.eqb (id a) i); reflexivity. Qed.

Lemma find_markRow lib p b l e :
  find (matches_path lib p) l = Some e ->
  find (matches_path lib p) (map (markRow (id e) b) l)
  = Some (set_isOffline b e).
Proof.
  induction l as [|a l IH]; simpl; [discriminate|].
  rewrite matches_path_markRow.
  destruct (matches_path lib p a) eqn:Ha.
  - intros [= ->]. unfold markRow. now rewrite Nat.eqb_refl.
  - exact IH.
Qed.

Lemma filter_markRow lib p i b l :
  filter (matches_path lib p) (map (markRow i b) l)
  = map (markRow i b) (filter (matches_path lib p) l).
Proof.
  induction l as [|a l IH]; simpl; [reflexivity|].
  rewrite matches_path_markRow.
  destruct (matches_path lib p a); simpl; now rewrite IH.
Qed.

Lemma find_app_some {A} (f : A -> bool) l l' x :
  find f l = Some x -> find f (l ++ l') = Some x.
Proof.
  induction l as [|a l IH]; simpl; [discriminate|].
  destruct (f a); auto.
Qed.

Lemma find_filter_head {A} (f : A -> bool) l :
  find f l = hd_error (filter f l).
Proof.
  induction l as [|a l IH]; simpl; [reflexivity|].
  destruct (f a); simpl; auto.
Qed.


(** ** The ingest worker *)

Lemma doImport_false_iff job e stats :
  doImport job (Some e) stats = false <->
  forceRefresh job = false /\ strict_neq (mtime stats) (fileModifiedAt e) = false.
Proof.
  unfold doImport.
  destruct (strict_neq (mtime stats) (fileModifiedAt e)), (forceRefresh job);
    intuition congruence.
Qed.

(** Two distinct [Date] objects are unequal for [!==], whatever instants
    they hold: the re-import is then decided. *)
Lemma distinct_dates_force_import job e stats :
  date_ref (mtime stats) <> date_ref (fileModifiedAt e) ->
  doImport job (Some e) stats = true.
Proof.
  intro H. unfold doImport, strict_neq.
  apply Nat.eqb_neq in H. now rewrite H.
Qed.

Ltac run_worker :=
  unfold handleRefreshAsset, handleOfflineAsset, bind,
    assetRepository_getByLibraryIdAndOriginalPath, fs_promises_stat,
    assetRepository_update, assetRepository_remove, assetRepository_create,
    jobRepository_queue, mime_lookup_, mimeTypes_isAsset_,
    cryptoRepository_hashFile_, fs_promises_access, liftResult, logCall,
    ret, throw; simpl.

(** C5. An ingest job whose path cannot be stat'ed: without an asset for
    the path the job fails with a [BadRequestException] built around the
    error of [stat], and the catalog is left as it was; with an asset, that asset is marked offline, nothing is imported
    (no checksum, no new row, no job) and the worker answers [true]. *)
Theorem handleRefreshAsset_stat_fails env job w error :
  fs_stat env (statCalls w) (assetPath job) = Throw error ->
  match find (matches_path (libraryId job) (assetPath job)) (catalog w) with
  | None =>
      handleRefreshAsset env job w =
      (Throw (BadRequestExceptionOf error "Can't access file"),
       mkWorld (catalog w) (nextAssetId w) (queue w) (S (statCalls w))
         (trace w ++ [CallGetByPath (libraryId job) (assetPath job);
                      CallStat (assetPath job)]))
  | Some e =>
      handleRefreshAsset env job w =
      (Ok true,
       mkWorld (map (markRow (id e) true) (catalog w)) (nextAssetId w)
         (queue w) (S (statCalls w))
         (trace w ++ [CallGetByPath (libraryId job) (assetPath job);
                      CallStat (assetPath job); CallUpdate (id e) true]))
      /\ find (matches_path (libraryId job) (assetPath job))
              (map (markRow (id e) true) (catalog w))
         = Some (set_isOffline true e)
  end.
Proof.
  intro Hstat.
  destruct (find _ (catalog w)) as [e|] eqn:Hfind.
  - split.
    + run_worker. rewrite Hfind, Hstat; simpl.
      now rewrite <- !app_assoc.
    + now apply find_markRow.
  - run_worker. rewrite Hfind, Hstat; simpl.
    now rewrite <- !app_assoc.
Qed.

(** The skip branch.  Where it is taken (an asset exists, [forceRefresh]
    is off and the
    test [stats.mtime !== existingAssetEntity.fileModifiedAt] is false) the
    worker answers [true]; the catalog changes at most by the cleared
    [isOffline] flag of the asset, and no checksum is computed, no row is
    created and no job is queued. *)
Theorem handleRefreshAsset_skip_frame env job w e stats :
  find (matches_path (libraryId job) (assetPath job)) (catalog w) = Some e ->
  fs_stat env (statCalls w) (assetPath job) = Ok stats ->
  forceRefresh job = false ->
  strict_neq (mtime stats) (fileModifiedAt e) = false ->
  handleRefreshAsset env job w =
  (Ok true,
   mkWorld (if isOffline e then map (markRow (id e) false) (catalog w)
            else catalog w)
     (nextAssetId w) (queue w) (S (statCalls w))
     (trace w ++ [CallGetByPath (libraryId job) (assetPath job);
                  CallStat (assetPath job)]
        ++ if isOffline e then [CallUpdate (id e) false] else [])).
Proof.
  intros Hfind Hstat Hforce Hsame.
  assert (Hno : doImport job (Some e) stats = false)
    by (apply doImport_false_iff; auto).
  run_worker. rewrite Hfind, Hstat; simpl.
  destruct (isOffline e); simpl; rewrite Hno; simpl;
    rewrite <- ?app_assoc; simpl; rewrite ?app_nil_r; reflexivity.
Qed.

Ltac normalize_trace :=
  simpl; rewrite <- ?app_assoc; simpl; rewrite ?app_nil_r.

(** C7. An ingest job over an asset that is marked offline and whose file
    can be stat'ed: right after the lookup and the stat the worker clears
    the flag, whatever the import decision is; everything an import does
    (mime lookup, checksum, new row, jobs) comes after that update, no
    later call sets the flag again, and the asset ends with
    [isOffline = false] also when the import is skipped or fails.  The
    import decision does not read the flag: taken on the cleared asset it
    is the one the worker takes. *)
Theorem handleRefreshAsset_clears_offline_first env job w e stats :
  find (matches_path (libraryId job) (assetPath job)) (catalog w) = Some e ->
  isOffline e = true ->
  fs_stat env (statCalls w) (assetPath job) = Ok stats ->
  doImport job (Some (set_isOffline false e)) stats
  = doImport job (Some e) stats /\
  exists r w' rest,
    handleRefreshAsset env job w = (r, w') /\
    trace w' = trace w ++ [CallGetByPath (libraryId job) (assetPath job);
                           CallStat (assetPath job);
                           CallUpdate (id e) false] ++ rest /\
    (forall i b, ~ In (CallUpdate i b) rest) /\
    (doImport job (Some e) stats = false -> r = Ok true /\ rest = []) /\
    find (matches_path (libraryId job) (assetPath job)) (catalog w')
    = Some (set_isOffline false e).
Proof.
  intros Hfind Hoff Hstat. split; [reflexivity|].
  pose proof (find_markRow (libraryId job) (assetPath job) false _ Hfind) as Hafter.
  run_worker. rewrite Hfind, Hstat; simpl. rewrite Hoff; simpl.
  destruct (doImport job (Some e) stats) eqn:Himp; simpl.
  2:{ do 3 eexists. split; [reflexivity|]. normalize_trace.
      split; [reflexivity|]. repeat split; auto. }
  destruct (mime_lookup env (assetPath job)) as [m|] eqn:Hm; simpl.
  2:{ do 3 eexists. split; [reflexivity|]. normalize_trace.
      split; [reflexivity|]. simpl. repeat split; auto; try discriminate.
      intros i b [H|[]]; discriminate. }
  destruct (String.eqb m "") eqn:Hempty; simpl.
  { do 3 eexists. split; [reflexivity|]. normalize_trace.
    split; [reflexivity|]. repeat split; auto; try discriminate.
    intros i b [H|[]]; discriminate. }
  destruct (mimeTypes_isAsset env (assetPath job)) eqn:Hasset; simpl.
  2:{ do 3 eexists. split; [reflexivity|]. normalize_trace.
      split; [reflexivity|]. repeat split; auto; try discriminate.
      intros i b [H|[H|[]]]; discriminate. }
  destruct (cryptoRepository_hashFile env (assetPath job)) as [c|err] eqn:Hhash;
    simpl.
  2:{ do 3 eexists. split; [reflexivity|]. normalize_trace.
      split; [reflexivity|]. repeat split; auto; try discriminate.
      intros i b [H|[H|[H|[]]]]; discriminate. }
  destruct (String.eqb (assetTypeOf m) AssetType_VIDEO) eqn:Hvideo; simpl.
  - do 3 eexists. split; [reflexivity|]. normalize_trace.
    split; [reflexivity|]. repeat split; auto; try discriminate.
    + intros i b H; simpl in H.
      repeat (destruct H as [H|H]; [discriminate|]). exact H.
    + now apply find_app_some.
  - do 3 eexists. split; [reflexivity|]. normalize_trace.
    split; [reflexivity|]. repeat split; auto; try discriminate.
    + intros i b H; simpl in H.
      repeat (destruct H as [H|H]; [discriminate|]). exact H.
    + now apply find_app_some.
Qed.

(** C8. When the ingest worker imports (the import is decided, the mime
    type is found and supported, the checksum is computed), it stores one
    row, queues METADATA_EXTRACTION for that row and then queues
    VIDEO_CONVERSION for it exactly when the derived asset type is VIDEO;
    nothing else is queued. *)
Theorem handleRefreshAsset_import_jobs env job w stats mimeType sum :
  fs_stat env (statCalls w) (assetPath job) = Ok stats ->
  doImport job
    (find (matches_path (libraryId job) (assetPath job)) (catalog w)) stats
  = true ->
  mime_lookup env (assetPath job) = Some mimeType ->
  mimeType <> EmptyString ->
  mimeTypes_isAsset env (assetPath job) = true ->
  cryptoRepository_hashFile env (assetPath job) = Ok sum ->
  exists w' row,
    handleRefreshAsset env job w = (Ok true, w') /\
    In row (catalog w') /\
    id row = nextAssetId w /\
    originalPath row = assetPath job /\
    type row = assetTypeOf mimeType /\
    queue w' =
      queue w ++ METADATA_EXTRACTION (id row) "upload"
        :: (if String.eqb (assetTypeOf mimeType) "VIDEO"
            then [VIDEO_CONVERSION (id row)] else []).
Proof.
  intros Hstat Himp Hm Hne Hasset Hhash.
  apply String.eqb_neq in Hne.
  run_worker. rewrite Hstat; simpl.
  destruct (find _ (catalog w)) as [e|] eqn:Hfind; simpl.
  - destruct (isOffline e); simpl; rewrite Himp; simpl;
      rewrite Hm; simpl; rewrite Hne; simpl; rewrite Hasset; simpl;
      rewrite Hhash; simpl;
      unfold AssetType_VIDEO;
      destruct (String.eqb (assetTypeOf mimeType) "VIDEO"); simpl;
      do 2 eexists; (split; [reflexivity|]); simpl;
      rewrite <- ?app_assoc; simpl;
      (split; [apply in_or_app; right; left; reflexivity|]); auto.
  - rewrite ?Himp; simpl;
      rewrite Hm; simpl; rewrite Hne; simpl; rewrite Hasset; simpl;
      rewrite Hhash; simpl;
      unfold AssetType_VIDEO;
      destruct (String.eqb (assetTypeOf mimeType) "VIDEO"); simpl;
      do 2 eexists; (split; [reflexivity|]); simpl;
      rewrite <- ?app_assoc; simpl;
      (split; [apply in_or_app; right; left; reflexivity|]); auto.
Qed.

(** ** The offline worker *)

Lemma single_row_is_found {A} (f : A -> bool) l e :
  find f l = Some e -> length (filter f l) <= 1 -> filter f l = [e].
Proof.
  rewrite find_filter_head.
  destruct (filter f l) as [|a [|b t]]; simpl; try discriminate.
  - now intros [= ->].
  - intros _ H; lia.
Qed.

Lemma filter_swap {A} (f g : A -> bool) l :
  filter f (filter g l) = filter g (filter f l).
Proof.
  induction l as [|a l IH]; simpl; [reflexivity|].
  destruct (g a) eqn:Hg, (f a) eqn:Hf; simpl;
    rewrite ?Hg, ?Hf, IH; reflexivity.
Qed.

(** An offline job.  Without a row for its path the job fails with
    an error.  With a row, the worker answers [true]; when [emptyTrash] is
    on, the row is deleted from the catalog, and when it is off the row
    stays and has [isOffline = true].  Where the catalog holds no second
    row for the path (the catalog's invariant), no row is left for the
    path after the deletion, and exactly the one offline row otherwise. *)
Theorem handleOfflineAsset_outcome job w :
  match find (matches_path (libraryId job) (assetPath job)) (catalog w) with
  | None =>
      handleOfflineAsset job w =
      (Throw (BadRequestException
                ("Asset does not exist in database: " ++ assetPath job)%string),
       mkWorld (catalog w) (nextAssetId w) (queue w) (statCalls w)
         (trace w ++ [CallGetByPath (libraryId job) (assetPath job)]))
  | Some e =>
      exists w',
        handleOfflineAsset job w = (Ok true, w') /\
        queue w' = queue w /\
        catalog w' =
          (if emptyTrash job
           then filter (fun r => negb (Nat.eqb (id r) (id e))) (catalog w)
           else map (markRow (id e) true) (catalog w)) /\
        (emptyTrash job = true ->
         forall a, In a (catalog w') -> id a <> id e) /\
        (emptyTrash job = false ->
         find (matches_path (libraryId job) (assetPath job)) (catalog w')
         = Some (set_isOffline true e)) /\
        (length (rowsFor (libraryId job) (assetPath job) w) <= 1 ->
         rowsFor (libraryId job) (assetPath job) w'
         = if emptyTrash job then [] else [set_isOffline true e])
  end.
Proof.
  unfold rowsFor.
  destruct (find _ (catalog w)) as [e|] eqn:Hfind.
  - unfold handleOfflineAsset, bind,
      assetRepository_getByLibraryIdAndOriginalPath, logCall; simpl.
    rewrite Hfind.
    destruct (emptyTrash job) eqn:Htrash.
    + eexists. split; [reflexivity|]. simpl.
      split; [reflexivity|]. split; [reflexivity|]. split; [|split].
      * intros _ a Ha. apply filter_In in Ha. destruct Ha as [_ Ha].
        apply negb_true_iff, Nat.eqb_neq in Ha. exact Ha.
      * discriminate.
      * intro Hone. rewrite filter_swap.
        rewrite (single_row_is_found _ _ Hfind Hone). simpl.
        now rewrite Nat.eqb_refl.
    + eexists. split; [reflexivity|]. simpl.
      split; [reflexivity|]. split; [reflexivity|]. split; [|split].
      * discriminate.
      * intros _. now apply find_markRow.
      * intro Hone.
        change (fun a => if Nat.eqb (id a) (id e)
                         then set_isOffline true a else a)
          with (markRow (id e) true).
        rewrite filter_markRow, (single_row_is_found _ _ Hfind Hone).
        simpl. unfold markRow. now rewrite Nat.eqb_refl.
  - unfold handleOfflineAsset, bind,
      assetRepository_getByLibraryIdAndOriginalPath, logCall, throw; simpl.
    now rewrite Hfind.
Qed.

(** ** The reconciler *)

Ltac run_refresh :=
  unfold refresh, bind, libraryRepository_getById_, crawler_findAllMedia_,
    assetRepository_getByLibraryId, liftResult, logCall, ret, throw; simpl.

(** C9. A refresh of a library whose type is not IMPORT is rejected with
    an error right after the library was read and the error was logged:
    the crawler is not called, no job is queued, the catalog is not
    touched. *)
Theorem refresh_rejects_non_import env authUser libId dto w lib :
  libraryRepository_getById env libId = Ok lib ->
  library_type lib <> IMPORT ->
  refresh env authUser libId dto w =
  (Throw (InternalServerErrorException
            "Only imported libraries can be refreshed"),
   mkWorld (catalog w) (nextAssetId w) (queue w) (statCalls w)
     (trace w ++ [CallGetLibrary libId;
                  CallLoggerError "Only imported libraries can be refreshed"])).
Proof.
  intros Hlib Htype. run_refresh. rewrite Hlib; simpl.
  destruct (library_type lib); [congruence|]. simpl.
  now rewrite <- app_assoc.
Qed.

Lemma includes_In l p : includes l p = true <-> In p l.
Proof.
  unfold includes. rewrite existsb_exists. split.
  - intros [x [Hx Heq]]. apply String.eqb_eq in Heq. now subst.
  - intro H. exists p. split; [exact H|apply String.eqb_refl].
Qed.

(** What a pass does once the library is an IMPORT library and the crawl
    has answered: the refresh jobs are queued first, the catalog is read
    after them. *)
Lemma refresh_run env authUser libId dto w lib found :
  libraryRepository_getById env libId = Ok lib ->
  library_type lib = IMPORT ->
  crawler_findAllMedia env (importPaths lib) = Ok found ->
  let crawled := map (path_normalize env) found in
  let refreshJobs := map (refreshJobOf env authUser libId dto) crawled in
  let offlineJobs :=
    map (offlineJobOf authUser libId dto)
        (filter (fun p => negb (includes crawled p))
                (catalogPathsOf env libId w)) in
  let calls :=
    [CallGetLibrary libId; CallCrawl (importPaths lib)]
      ++ map CallQueue refreshJobs ++ [CallGetByLibraryId [libId]] in
  refresh env authUser libId dto w =
  match getByLibraryId_fault env [libId] with
  | Some e =>
      (Throw e,
       mkWorld (catalog w) (nextAssetId w) (queue w ++ refreshJobs)
               (statCalls w) (trace w ++ calls))
  | None =>
      (Ok tt,
       mkWorld (catalog w) (nextAssetId w)
               (queue w ++ refreshJobs ++ offlineJobs) (statCalls w)
               (trace w ++ calls ++ map CallQueue offlineJobs))
  end.
Proof.
  intros Hlib Htype Hcrawl. run_refresh.
  rewrite Hlib; simpl. rewrite Htype; simpl. rewrite Hcrawl; simpl.
  rewrite (forEach_queue (refreshJobOf env authUser libId dto)); simpl.
  destruct (getByLibraryId_fault env [libId]) as [e|]; simpl.
  - rewrite !map_map, <- !app_assoc. reflexivity.
  - rewrite (forEach_queue (offlineJobOf authUser libId dto)); simpl.
    unfold catalogPathsOf; simpl.
    rewrite !map_map, <- !app_assoc. simpl. rewrite <- ?app_assoc.
    reflexivity.
Qed.

Lemma refreshJobsFor_app p l l' :
  refreshJobsFor p (l ++ l') = refreshJobsFor p l + refreshJobsFor p l'.
Proof. unfold refreshJobsFor. now rewrite filter_app, length_app. Qed.

Lemma offlineJobsFor_app p l l' :
  offlineJobsFor p (l ++ l') = offlineJobsFor p l + offlineJobsFor p l'.
Proof. unfold offlineJobsFor. now rewrite filter_app, length_app. Qed.

Lemma count_eqb (q p : string) (n : nat) :
  (if string_dec q p then S n else n) = (if String.eqb q p then S n else n).
Proof.
  destruct (string_dec q p) as [->|H].
  - now rewrite String.eqb_refl.
  - apply String.eqb_neq in H. now rewrite H.
Qed.

Lemma refreshJobsFor_refresh env authUser libId dto p l :
  (forall q, In q l -> path_normalize env q = q) ->
  refreshJobsFor p (map (refreshJobOf env authUser libId dto) l)
  = count_occ string_dec l p.
Proof.
  unfold refreshJobsFor.
  induction l as [|q l IH]; intro Hn; simpl; [reflexivity|].
  rewrite count_eqb, (Hn q (or_introl eq_refl)).
  destruct (String.eqb q p); simpl; rewrite IH; auto;
    intros r Hr; apply Hn; now right.
Qed.

Lemma refreshJobsFor_offline authUser libId dto p l :
  refreshJobsFor p (map (offlineJobOf authUser libId dto) l) = 0.
Proof. unfold refreshJobsFor. induction l; simpl; auto. Qed.

Lemma offlineJobsFor_refresh env authUser libId dto p l :
  offlineJobsFor p (map (refreshJobOf env authUser libId dto) l) = 0.
Proof. unfold offlineJobsFor. induction l; simpl; auto. Qed.

Lemma offlineJobsFor_offline authUser libId dto p l :
  offlineJobsFor p (map (offlineJobOf authUser libId dto) l)
  = count_occ string_dec l p.
Proof.
  unfold offlineJobsFor.
  induction l as [|q l IH]; simpl; [reflexivity|].
  rewrite count_eqb. destruct (String.eqb q p); simpl; now rewrite IH.
Qed.

Lemma count_occ_absent crawled l p :
  count_occ string_dec (filter (fun q => negb (includes crawled q)) l) p
  = if includes crawled p then 0 else count_occ string_dec l p.
Proof.
  induction l as [|q l IH]; simpl.
  - now destruct (includes crawled p).
  - destruct (string_dec q p) as [->|Hqp].
    + destruct (includes crawled p) eqn:Hp; simpl.
      * exact IH.
      * destruct (string_dec p p); [|congruence]. now rewrite IH.
    + destruct (includes crawled q); simpl; [exact IH|].
      destruct (string_dec q p); [congruence|exact IH].
Qed.

(** C1, as the service has it.  A pass over an IMPORT library whose crawl
    and catalog fetch answer queues, in this order, one refresh job per
    entry of the normalized crawl result and one offline job per row of
    the library whose normalized path is not in the crawl result.  A path
    thus receives as many refresh jobs as it has entries in the normalized
    crawl result (exactly one when that list has no duplicates), a path
    outside the crawl result as many offline jobs as the library has rows
    for it (exactly one when the rows have distinct normalized paths), and
    a path of the crawl result never receives an offline job. *)
Theorem refresh_emits_job_per_entry env authUser libId dto w lib found :
  (forall p, path_normalize env (path_normalize env p) = path_normalize env p) ->
  libraryRepository_getById env libId = Ok lib ->
  library_type lib = IMPORT ->
  crawler_findAllMedia env (importPaths lib) = Ok found ->
  getByLibraryId_fault env [libId] = None ->
  let crawled := map (path_normalize env) found in
  let catalogPaths := catalogPathsOf env libId w in
  let emitted :=
    map (refreshJobOf env authUser libId dto) crawled
    ++ map (offlineJobOf authUser libId dto)
         (filter (fun p => negb (includes crawled p)) catalogPaths) in
  exists w',
    refresh env authUser libId dto w = (Ok tt, w') /\
    queue w' = queue w ++ emitted /\
    catalog w' = catalog w /\
    (forall p, refreshJobsFor p emitted = count_occ string_dec crawled p) /\
    (forall p, offlineJobsFor p emitted =
               if includes crawled p then 0
               else count_occ string_dec catalogPaths p) /\
    (NoDup crawled ->
     forall p, In p crawled -> refreshJobsFor p emitted = 1) /\
    (NoDup catalogPaths ->
     forall p, In p catalogPaths -> ~ In p crawled ->
               offlineJobsFor p emitted = 1) /\
    (forall p, In p crawled -> offlineJobsFor p emitted = 0).
Proof.
  intros Hidem Hlib Htype Hcrawl Hfetch crawled catalogPaths emitted.
  pose proof (refresh_run env authUser libId dto w Hlib Htype Hcrawl) as Hrun.
  simpl in Hrun. rewrite Hfetch in Hrun.
  assert (Hfix : forall q, In q crawled -> path_normalize env q = q).
  { intros q Hq. apply in_map_iff in Hq. destruct Hq as [r [<- _]]. apply Hidem. }
  assert (Hr : forall p, refreshJobsFor p emitted = count_occ string_dec crawled p).
  { intro p. unfold emitted.
    rewrite refreshJobsFor_app, refreshJobsFor_offline, Nat.add_0_r.
    now apply refreshJobsFor_refresh. }
  assert (Ho : forall p, offlineJobsFor p emitted =
                         if includes crawled p then 0
                         else count_occ string_dec catalogPaths p).
  { intro p. unfold emitted.
    rewrite offlineJobsFor_app, offlineJobsFor_refresh, offlineJobsFor_offline.
    simpl. apply count_occ_absent. }
  eexists. split; [exact Hrun|]. simpl.
  split; [reflexivity|]. split; [reflexivity|].
  split; [exact Hr|]. split; [exact Ho|]. split; [|split].
  - intros Hnd p Hp. rewrite Hr.
    now apply (proj1 (NoDup_count_occ' string_dec crawled)).
  - intros Hnd p Hp Hout. rewrite Ho.
    destruct (includes crawled p) eqn:Hin.
    + apply includes_In in Hin. contradiction.
    + now apply (proj1 (NoDup_count_occ' string_dec catalogPaths)).
  - intros p Hp. rewrite Ho.
    apply includes_In in Hp. now rewrite Hp.
Qed.

(** C4, as the service has it.  A pass over an IMPORT library whose crawl
    fails stops with that error and has queued nothing.  A pass whose
    catalog fetch fails stops with that error after the refresh job of
    every crawled path has been queued; it queues no offline job.  The
    catalog is left as it was in both cases. *)
Theorem refresh_failure_emission env authUser libId dto w lib :
  libraryRepository_getById env libId = Ok lib ->
  library_type lib = IMPORT ->
  (forall e,
     crawler_findAllMedia env (importPaths lib) = Throw e ->
     exists w',
       refresh env authUser libId dto w = (Throw e, w') /\
       queue w' = queue w /\ catalog w' = catalog w) /\
  (forall found e,
     crawler_findAllMedia env (importPaths lib) = Ok found ->
     getByLibraryId_fault env [libId] = Some e ->
     exists w',
       refresh env authUser libId dto w = (Throw e, w') /\
       queue w' = queue w ++ map (refreshJobOf env authUser libId dto)
                                 (map (path_normalize env) found) /\
       (forall p, offlineJobsFor p (queue w') = offlineJobsFor p (queue w)) /\
       catalog w' = catalog w).
Proof.
  intros Hlib Htype. split.
  - intros e Hcrawl. run_refresh.
    rewrite Hlib; simpl. rewrite Htype; simpl. rewrite Hcrawl; simpl.
    eexists. split; [reflexivity|]. simpl. auto.
  - intros found e Hcrawl Hfetch.
    pose proof (refresh_run env authUser libId dto w Hlib Htype Hcrawl) as Hrun.
    simpl in Hrun. rewrite Hfetch in Hrun.
    eexists. split; [exact Hrun|]. simpl.
    split; [reflexivity|]. split; [|reflexivity].
    intro p. now rewrite offlineJobsFor_app, offlineJobsFor_refresh, Nat.add_0_r.
Qed.

(** ** The sample path normalizer *)

Lemma squeeze_slashes_head (r : string) :
  forall d, exists t, squeeze_slashes (String d r) = String d t.
Proof.
  induction r as [|e r IH]; intro d.
  - now exists EmptyString.
  - change (squeeze_slashes (String d (String e r)))
      with (if Ascii.eqb d "/" && Ascii.eqb e "/"
            then squeeze_slashes (String e r)
            else String d (squeeze_slashes (String e r))).
    destruct (Ascii.eqb d "/") eqn:Hd, (Ascii.eqb e "/") eqn:He; simpl;
      try (eexists; reflexivity).
    apply Ascii.eqb_eq in Hd, He. subst. apply IH.
Qed.

Lemma squeeze_slashes_idem (s : string) :
  squeeze_slashes (squeeze_slashes s) = squeeze_slashes s.
Proof.
  induction s as [|c r IH]; [reflexivity|].
  destruct r as [|d r'].
  - reflexivity.
  - change (squeeze_slashes (String c (String d r')))
      with (if Ascii.eqb c "/" && Ascii.eqb d "/"
            then squeeze_slashes (String d r')
            else String c (squeeze_slashes (String d r'))).
    destruct (Ascii.eqb c "/" && Ascii.eqb d "/") eqn:Hcd; [exact IH|].
    destruct (squeeze_slashes_head r' d) as [t Ht].
    rewrite Ht in IH |- *.
    change (squeeze_slashes (String c (String d t)))
      with (if Ascii.eqb c "/" && Ascii.eqb d "/"
            then squeeze_slashes (String d t)
            else String c (squeeze_slashes (String d t))).
    now rewrite Hcd, IH.
Qed.

(** ** The reconciler on the sample installation *)

Lemma refresh_emits_job_per_entry_witness :
  exists w',
    refresh mediaEnv alice "lib-1" defaults mediaWorld = (Ok tt, w') /\
    refreshJobsFor "/media/a.jpg" (queue w') = 1 /\
    refreshJobsFor "/media/c.mp4" (queue w') = 1 /\
    offlineJobsFor "/media/b.jpg" (queue w') = 1 /\
    offlineJobsFor "/media/c.mp4" (queue w') = 0 /\
    length (queue w') = 3.
Proof.
  destruct (@refresh_emits_job_per_entry mediaEnv alice "lib-1" defaults
              mediaWorld photos ["/media//a.jpg"; "/media/c.mp4"]
              squeeze_slashes_idem eq_refl eq_refl eq_refl eq_refl)
    as [w' [Hrun [Hq _]]].
  exists w'. split; [exact Hrun|]. rewrite Hq.
  repeat split; reflexivity.
Defined.

(** The claim C1 fails where the crawl names a file twice and where the
    catalog holds two rows for a path: each entry and each row gets a job
    of its own. *)
Lemma refresh_duplicate_jobs :
  ~ one_job_per_path nestedEnv alice "lib-3" defaults nestedWorld /\
  refreshJobsFor "/media/2023/a.jpg"
    (queue (snd (refresh nestedEnv alice "lib-3" defaults nestedWorld))) = 2 /\
  offlineJobsFor "/media/b.jpg"
    (queue (snd (refresh nestedEnv alice "lib-3" defaults nestedWorld))) = 2.
Proof.
  split; [|split; reflexivity].
  intro H.
  destruct (H nested ["/media/2023/a.jpg"; "/media/2023/a.jpg"]
              (snd (refresh nestedEnv alice "lib-3" defaults nestedWorld))
              eq_refl eq_refl eq_refl) as [Hr _].
  specialize (Hr "/media/2023/a.jpg" (or_introl eq_refl)).
  vm_compute in Hr. discriminate.
Qed.

Lemma refresh_failure_emission_witness :
  (exists w',
     refresh blindEnv alice "lib-1" defaults mediaWorld
     = (Throw (CollaboratorError "EACCES: permission denied"), w') /\
     queue w' = []) /\
  (exists w',
     refresh faultyEnv alice "lib-1" defaults mediaWorld
     = (Throw (CollaboratorError "Connection terminated unexpectedly"), w') /\
     queue w' =
       [REFRESH_LIBRARY_FILE (jobFor "/media/a.jpg" false false);
        REFRESH_LIBRARY_FILE (jobFor "/media/c.mp4" false false)]).
Proof.
  split.
  - destruct (proj1 (@refresh_failure_emission blindEnv alice "lib-1" defaults
                       mediaWorld photos eq_refl eq_refl) _ eq_refl)
      as [w' [Hrun [Hq _]]].
    exists w'. split; [exact Hrun|exact Hq].
  - destruct (proj2 (@refresh_failure_emission faultyEnv alice "lib-1" defaults
                       mediaWorld photos eq_refl eq_refl) _ _ eq_refl eq_refl)
      as [w' [Hrun [Hq _]]].
    exists w'. split; [exact Hrun|exact Hq].
Defined.

(** The claim C4 fails where the catalog fetch fails: the refresh jobs of
    the crawled paths are in the queue by then. *)
Lemma refresh_partial_emission :
  ~ failed_pass_emits_nothing faultyEnv alice "lib-1" defaults mediaWorld.
Proof.
  intro H.
  specialize (H photos eq_refl
                (or_intror (ex_intro _ (CollaboratorError
                   "Connection terminated unexpectedly") eq_refl))).
  vm_compute in H. discriminate.
Qed.

Lemma refresh_rejects_non_import_witness :
  refresh mediaEnv alice "lib-2" defaults mediaWorld =
  (Throw (InternalServerErrorException
            "Only imported libraries can be refreshed"),
   mkWorld (catalog mediaWorld) 3 [] 0
     [CallGetLibrary "lib-2";
      CallLoggerError "Only imported libraries can be refreshed"]).
Proof.
  exact (@refresh_rejects_non_import mediaEnv alice "lib-2" defaults
           mediaWorld uploads eq_refl
           (fun H : UPLOAD = IMPORT =>
              eq_ind UPLOAD (fun t => match t with UPLOAD => True
                                                 | IMPORT => False end)
                     I IMPORT H)).
Defined.

(** ** The workers on the sample installation *)

Lemma handleRefreshAsset_stat_fails_witness :
  handleRefreshAsset mediaEnv (jobFor "/media/x.jpg" false false) mediaWorld
  = (Throw (BadRequestExceptionOf
              (Error "ENOENT: no such file or directory")
              "Can't access file"),
     mkWorld (catalog mediaWorld) 3 [] 1
       [CallGetByPath "lib-1" "/media/x.jpg"; CallStat "/media/x.jpg"])
  /\
  handleRefreshAsset mediaEnv (jobFor "/media/b.jpg" false false) mediaWorld
  = (Ok true,
     mkWorld [sampleAsset 1 "lib-1" "/media/b.jpg" (mkDate 7 4000) true;
              sampleAsset 2 "lib-1" "/media/c.mp4" (mkDate 8 6000) false]
       3 [] 1
       [CallGetByPath "lib-1" "/media/b.jpg"; CallStat "/media/b.jpg";
        CallUpdate 1 true]).
Proof.
  split.
  - exact (@handleRefreshAsset_stat_fails mediaEnv
             (jobFor "/media/x.jpg" false false) mediaWorld
             (Error "ENOENT: no such file or directory") eq_refl).
  - exact (proj1 (@handleRefreshAsset_stat_fails mediaEnv
                    (jobFor "/media/b.jpg" false false) mediaWorld
                    (Error "ENOENT: no such file or directory") eq_refl)).
Defined.

Lemma handleRefreshAsset_skip_frame_witness :
  handleRefreshAsset mediaEnv (jobFor "/media/a.jpg" false false) sharedWorld
  = (Ok true,
     mkWorld [sampleAsset 1 "lib-1" "/media/a.jpg" (mkDate 1000 5000) false]
       2 [] 1
       [CallGetByPath "lib-1" "/media/a.jpg"; CallStat "/media/a.jpg";
        CallUpdate 1 false]).
Proof.
  exact (@handleRefreshAsset_skip_frame mediaEnv
           (jobFor "/media/a.jpg" false false) sharedWorld
           (sampleAsset 1 "lib-1" "/media/a.jpg" (mkDate 1000 5000) true)
           (mkStats 100 (mkDate 1000 5000) (mkDate 1001 5000))
           eq_refl eq_refl eq_refl eq_refl).
Defined.

Lemma handleRefreshAsset_clears_offline_first_witness :
  exists r w' rest,
    handleRefreshAsset mediaEnv (jobFor "/media/a.jpg" false false)
      returnedWorld = (r, w') /\
    trace w' = [CallGetByPath "lib-1" "/media/a.jpg";
                CallStat "/media/a.jpg"; CallUpdate 1 false] ++ rest /\
    find (matches_path "lib-1" "/media/a.jpg") (catalog w')
    = Some (sampleAsset 1 "lib-1" "/media/a.jpg" (mkDate 7 4000) false).
Proof.
  destruct (proj2 (@handleRefreshAsset_clears_offline_first mediaEnv
              (jobFor "/media/a.jpg" false false) returnedWorld
              (sampleAsset 1 "lib-1" "/media/a.jpg" (mkDate 7 4000) true)
              (mkStats 100 (mkDate 1000 5000) (mkDate 1001 5000))
              eq_refl eq_refl eq_refl))
    as [r [w' [rest [Hrun [Htrace [_ [_ Hfind]]]]]]].
  exists r, w', rest. split; [exact Hrun|].
  split; [exact Htrace|exact Hfind].
Defined.

Lemma handleRefreshAsset_import_jobs_witness :
  (exists w',
     handleRefreshAsset mediaEnv (jobFor "/media/c.mp4" false false) mediaWorld
     = (Ok true, w') /\
     queue w' = [METADATA_EXTRACTION 3 "upload"; VIDEO_CONVERSION 3]) /\
  (exists w',
     handleRefreshAsset mediaEnv (jobFor "/media/a.jpg" false false) mediaWorld
     = (Ok true, w') /\
     queue w' = [METADATA_EXTRACTION 3 "upload"]).
Proof.
  split.
  - destruct (@handleRefreshAsset_import_jobs mediaEnv
                (jobFor "/media/c.mp4" false false) mediaWorld
                (mkStats 100 (mkDate 1000 6000) (mkDate 1001 6000))
                "video/mp4" "sha1:/media/c.mp4"
                eq_refl eq_refl eq_refl
                (fun H : "video/mp4" = EmptyString =>
                   eq_ind "video/mp4"
                     (fun s => match s with EmptyString => False
                                          | String _ _ => True end)
                     I EmptyString H)
                eq_refl eq_refl)
      as [w' [row [Hrun [_ [Hid [_ [_ Hq]]]]]]].
    exists w'. split; [exact Hrun|]. rewrite Hq, Hid. reflexivity.
  - destruct (@handleRefreshAsset_import_jobs mediaEnv
                (jobFor "/media/a.jpg" false false) mediaWorld
                (mkStats 100 (mkDate 1000 5000) (mkDate 1001 5000))
                "image/jpeg" "sha1:/media/a.jpg"
                eq_refl eq_refl eq_refl
                (fun H : "image/jpeg" = EmptyString =>
                   eq_ind "image/jpeg"
                     (fun s => match s with EmptyString => False
                                          | String _ _ => True end)
                     I EmptyString H)
                eq_refl eq_refl)
      as [w' [row [Hrun [_ [Hid [_ [_ Hq]]]]]]].
    exists w'. split; [exact Hrun|]. rewrite Hq, Hid. reflexivity.
Defined.

Lemma handleOfflineAsset_outcome_witness :
  (exists w',
     handleOfflineAsset (jobFor "/media/b.jpg" false true) mediaWorld
     = (Ok true, w') /\
     catalog w'
     = [sampleAsset 2 "lib-1" "/media/c.mp4" (mkDate 8 6000) false] /\
     rowsFor "lib-1" "/media/b.jpg" w' = []) /\
  (exists w',
     handleOfflineAsset (jobFor "/media/b.jpg" false false) mediaWorld
     = (Ok true, w') /\
     rowsFor "lib-1" "/media/b.jpg" w'
     = [sampleAsset 1 "lib-1" "/media/b.jpg" (mkDate 7 4000) true]) /\
  handleOfflineAsset (jobFor "/media/x.jpg" false false) mediaWorld
  = (Throw (BadRequestException
              "Asset does not exist in database: /media/x.jpg"),
     mkWorld (catalog mediaWorld) 3 [] 0
       [CallGetByPath "lib-1" "/media/x.jpg"]).
Proof.
  split; [|split].
  - destruct (@handleOfflineAsset_outcome (jobFor "/media/b.jpg" false true)
                mediaWorld) as [w' [Hrun [_ [Hcat [_ [_ Hrows]]]]]].
    exists w'. split; [exact Hrun|]. split; [exact Hcat|exact (Hrows (le_n 1))].
  - destruct (@handleOfflineAsset_outcome (jobFor "/media/b.jpg" false false)
                mediaWorld) as [w' [Hrun [_ [_ [_ [_ Hrows]]]]]].
    exists w'. split; [exact Hrun|exact (Hrows (le_n 1))].
  - exact (@handleOfflineAsset_outcome (jobFor "/media/x.jpg" false false)
             mediaWorld).
Defined.

(** ** Where the ingest worker departs from its description *)

(** Every import stores a row of its own: when a row exists for the path
    of the job, the path has one row more afterwards. *)
Lemma reimport_adds_row env job w e stats mimeType sum :
  find (matches_path (libraryId job) (assetPath job)) (catalog w) = Some e ->
  fs_stat env (statCalls w) (assetPath job) = Ok stats ->
  doImport job (Some e) stats = true ->
  mime_lookup env (assetPath job) = Some mimeType ->
  mimeType <> EmptyString ->
  mimeTypes_isAsset env (assetPath job) = true ->
  cryptoRepository_hashFile env (assetPath job) = Ok sum ->
  exists w',
    handleRefreshAsset env job w = (Ok true, w') /\
    length (rowsFor (libraryId job) (assetPath job) w')
    = S (length (rowsFor (libraryId job) (assetPath job) w)).
Proof.
  intros Hfind Hstat Himp Hm Hne Hasset Hhash.
  apply String.eqb_neq in Hne.
  assert (Hnew : forall l row,
             library row = libraryId job -> originalPath row = assetPath job ->
             length (filter (matches_path (libraryId job) (assetPath job))
                            (l ++ [row]))
             = S (length (filter (matches_path (libraryId job) (assetPath job)) l))).
  { intros l row Hl Hp. rewrite filter_app, length_app. simpl.
    unfold matches_path. rewrite Hl, Hp, !String.eqb_refl. simpl. lia. }
  unfold rowsFor. run_worker. rewrite Hfind, Hstat; simpl.
  destruct (isOffline e); simpl; rewrite Himp; simpl;
    rewrite Hm; simpl; rewrite Hne; simpl; rewrite Hasset; simpl;
    rewrite Hhash; simpl;
    destruct (String.eqb (assetTypeOf mimeType) AssetType_VIDEO); simpl;
    eexists; (split; [reflexivity|]); simpl;
    rewrite Hnew by reflexivity; try reflexivity;
    change (fun a => if Nat.eqb (id a) (id e)
                     then set_isOffline false a else a)
      with (markRow (id e) false);
    now rewrite filter_markRow, length_map.
Qed.

(** C2.  The file of [a.jpg] is unchanged: its row and the disk hold the
    same instant, and [forceRefresh] is off.  Both runs of the worker
    import it all the same: [stat] hands out a [Date] object of its own
    each time, so [stats.mtime !== existingAssetEntity.fileModifiedAt]
    holds although the instants agree.  Two checksums are computed, two
    rows are stored and two follow-on jobs are queued. *)
Theorem unchanged_file_is_imported_twice :
  let job := jobFor "/media/a.jpg" false false in
  let run1 := handleRefreshAsset mediaEnv job unchangedWorld in
  let run2 := handleRefreshAsset mediaEnv job (snd run1) in
  map (fun a => date_ms (fileModifiedAt a))
      (rowsFor "lib-1" "/media/a.jpg" unchangedWorld) = [5000%Z] /\
  fs_stat mediaEnv 0 "/media/a.jpg"
  = Ok (mkStats 100 (mkDate 1000 5000) (mkDate 1001 5000)) /\
  fs_stat mediaEnv 1 "/media/a.jpg"
  = Ok (mkStats 100 (mkDate 1002 5000) (mkDate 1003 5000)) /\
  fst run1 = Ok true /\
  fst run2 = Ok true /\
  length (filter isHashCall (trace (snd run1))) = 1 /\
  length (filter isHashCall (trace (snd run2))) = 2 /\
  length (filter isCreateCall (trace (snd run2))) = 2 /\
  queue (snd run2)
  = [METADATA_EXTRACTION 2 "upload"; METADATA_EXTRACTION 3 "upload"] /\
  map id (rowsFor "lib-1" "/media/a.jpg" (snd run2)) = [1; 2; 3].
Proof. vm_compute. repeat split. Qed.

(** C3.  The file of [a.jpg] has changed since its row was written, so a
    re-import is due.  The worker does not update the row: it stores a
    second row for the same library and path and leaves the first one as
    it was. *)
Theorem reimport_creates_second_row :
  let job := jobFor "/media/a.jpg" false false in
  let run := handleRefreshAsset mediaEnv job changedWorld in
  rowsFor "lib-1" "/media/a.jpg" changedWorld
  = [sampleAsset 1 "lib-1" "/media/a.jpg" (mkDate 7 4000) false] /\
  fst run = Ok true /\
  map id (rowsFor "lib-1" "/media/a.jpg" (snd run)) = [1; 2] /\
  map (fun a => date_ms (fileModifiedAt a))
      (rowsFor "lib-1" "/media/a.jpg" (snd run)) = [4000%Z; 5000%Z] /\
  hd_error (catalog (snd run)) = hd_error (catalog changedWorld) /\
  trace (snd run)
  = [CallGetByPath "lib-1" "/media/a.jpg"; CallStat "/media/a.jpg";
     CallMimeLookup "/media/a.jpg"; CallIsAsset "/media/a.jpg";
     CallHashFile "/media/a.jpg"; CallAccess "/media/a.jpg.xmp";
     CallCreate "/media/a.jpg"; CallQueue (METADATA_EXTRACTION 2 "upload")].
Proof. vm_compute. repeat split. Qed.

(** Two rows for one path come about without any help: a file ingested
    twice into an empty catalog has two rows. *)
Lemma duplicate_rows_arise :
  let job := jobFor "/media/a.jpg" false false in
  let w1 := snd (handleRefreshAsset mediaEnv job emptyWorld) in
  let w2 := snd (handleRefreshAsset mediaEnv job w1) in
  map id (rowsFor "lib-1" "/media/a.jpg" w2) = [1; 2].
Proof. reflexivity. Qed.

(** * Further properties of the service *)

(** ** Shapes of the runs of the ingest worker *)

Lemma set_isOffline_markRow i b c a :
  set_isOffline c (markRow i b a) = set_isOffline c a.
Proof. unfold markRow. destruct (Nat.eqb (id a) i); reflexivity. Qed.

Lemma clearedCatalog_columns existing cat :
  map (set_isOffline false) (clearedCatalog existing cat)
  = map (set_isOffline false) cat.
Proof.
  unfold clearedCatalog. destruct existing as [e|]; [|reflexivity].
  destruct (isOffline e); [|reflexivity].
  rewrite map_map. apply map_ext. intro a. apply set_isOffline_markRow.
Qed.

Lemma clearedCatalog_length existing cat :
  length (clearedCatalog existing cat) = length cat.
Proof.
  unfold clearedCatalog. destruct existing as [e|]; [|reflexivity].
  destruct (isOffline e); [apply length_map|reflexivity].
Qed.

(** The world after an import that goes through. *)
Lemma handleRefreshAsset_import_run env job w stats mimeType sum :
  fs_stat env (statCalls w) (assetPath job) = Ok stats ->
  doImport job
    (find (matches_path (libraryId job) (assetPath job)) (catalog w)) stats
  = true ->
  mime_lookup env (assetPath job) = Some mimeType ->
  mimeType <> EmptyString ->
  mimeTypes_isAsset env (assetPath job) = true ->
  cryptoRepository_hashFile env (assetPath job) = Ok sum ->
  let existing :=
    find (matches_path (libraryId job) (assetPath job)) (catalog w) in
  let row := newAsset env job stats sum mimeType
                      (sidecarOf env (assetPath job)) (nextAssetId w) in
  handleRefreshAsset env job w =
  (Ok true,
   mkWorld (clearedCatalog existing (catalog w) ++ [row])
     (S (nextAssetId w)) (queue w ++ followOnJobs row) (S (statCalls w))
     (trace w
        ++ [CallGetByPath (libraryId job) (assetPath job);
            CallStat (assetPath job)]
        ++ clearCalls existing
        ++ [CallMimeLookup (assetPath job); CallIsAsset (assetPath job);
            CallHashFile (assetPath job);
            CallAccess (assetPath job ++ ".xmp")%string;
            CallCreate (assetPath job)]
        ++ map CallQueue (followOnJobs row))).
Proof.
  intros Hstat Himp Hm Hne Hasset Hhash existing row.
  apply String.eqb_neq in Hne.
  subst row existing. unfold followOnJobs, sidecarOf, clearedCatalog, clearCalls.
  run_worker. rewrite Hstat; simpl.
  destruct (find _ (catalog w)) as [e|] eqn:Hfind; simpl.
  - destruct (isOffline e); simpl; rewrite Himp; simpl;
      rewrite Hm; simpl; rewrite Hne; simpl; rewrite Hasset; simpl;
      rewrite Hhash; simpl;
      destruct (fs_access env (assetPath job ++ ".xmp")); simpl;
      destruct (String.eqb (assetTypeOf mimeType) AssetType_VIDEO); simpl;
      rewrite <- ?app_assoc; reflexivity.
  - rewrite ?Himp; simpl;
      rewrite Hm; simpl; rewrite Hne; simpl; rewrite Hasset; simpl;
      rewrite Hhash; simpl;
      destruct (fs_access env (assetPath job ++ ".xmp")); simpl;
      destruct (String.eqb (assetTypeOf mimeType) AssetType_VIDEO); simpl;
      rewrite <- ?app_assoc; reflexivity.
Qed.

Ltac no_row_branch :=
  split; [|left; auto];
  unfold clearedCatalog, clearCalls;
  rewrite ?app_nil_r, Nat.add_0_r.

(** Whatever happens after a successful [stat]: the catalog is the one
    left by the offline-flag step, followed by at most the new row, and
    jobs are queued only for a new row. *)
Lemma handleRefreshAsset_stat_ok_shape env job w stats :
  fs_stat env (statCalls w) (assetPath job) = Ok stats ->
  let existing :=
    find (matches_path (libraryId job) (assetPath job)) (catalog w) in
  exists r tail jobs calls,
    handleRefreshAsset env job w =
    (r, mkWorld (clearedCatalog existing (catalog w) ++ tail)
          (nextAssetId w + length tail) (queue w ++ jobs)
          (S (statCalls w)) (trace w ++ calls)) /\
    (tail = [] /\ jobs = [] \/
     exists row, tail = [row] /\ jobs = followOnJobs row /\ r = Ok true /\
                 library row = libraryId job /\
                 originalPath row = assetPath job /\
                 isOffline row = false).
Proof.
  intros Hstat existing.
  set (front := [CallGetByPath (libraryId job) (assetPath job);
                 CallStat (assetPath job)] ++ clearCalls existing).
  destruct (doImport job existing stats) eqn:Himp.
  2:{ exists (Ok true), [], [], front.
      subst front existing. no_row_branch.
      run_worker. rewrite Hstat; simpl.
      destruct (find _ (catalog w)) as [e|]; simpl.
      - destruct (isOffline e); simpl; rewrite Himp; simpl;
          rewrite <- ?app_assoc; reflexivity.
      - unfold doImport in Himp. discriminate. }
  destruct (mime_lookup env (assetPath job)) as [m|] eqn:Hm.
  2:{ exists (Throw (Error ("Cannot determine mime type of asset: "
                             ++ assetPath job)%string)), [], [],
        (front ++ [CallMimeLookup (assetPath job)]).
      subst front existing. no_row_branch.
      run_worker. rewrite Hstat; simpl.
      destruct (find _ (catalog w)) as [e|]; simpl.
      - destruct (isOffline e); simpl; rewrite Himp; simpl; rewrite Hm; simpl;
          rewrite <- ?app_assoc; reflexivity.
      - rewrite Hm; simpl. rewrite <- ?app_assoc; reflexivity. }
  destruct (String.eqb m "") eqn:Hempty.
  { exists (Throw (Error ("Cannot determine mime type of asset: "
                           ++ assetPath job)%string)), [], [],
      (front ++ [CallMimeLookup (assetPath job)]).
    subst front existing. no_row_branch.
    run_worker. rewrite Hstat; simpl.
    destruct (find _ (catalog w)) as [e|]; simpl.
    - destruct (isOffline e); simpl; rewrite Himp; simpl; rewrite Hm; simpl;
        rewrite Hempty; simpl; rewrite <- ?app_assoc; reflexivity.
    - rewrite Hm; simpl; rewrite Hempty; simpl.
      rewrite <- ?app_assoc; reflexivity. }
  destruct (mimeTypes_isAsset env (assetPath job)) eqn:Hasset.
  2:{ exists (Throw (BadRequestException
                        ("Unsupported file type " ++ m)%string)), [], [],
        (front ++ [CallMimeLookup (assetPath job);
                   CallIsAsset (assetPath job)]).
      subst front existing. no_row_branch.
      run_worker. rewrite Hstat; simpl.
      destruct (find _ (catalog w)) as [e|]; simpl.
      - destruct (isOffline e); simpl; rewrite Himp; simpl; rewrite Hm; simpl;
          rewrite Hempty; simpl; rewrite Hasset; simpl;
          rewrite <- ?app_assoc; reflexivity.
      - rewrite Hm; simpl; rewrite Hempty; simpl; rewrite Hasset; simpl.
        rewrite <- ?app_assoc; reflexivity. }
  destruct (cryptoRepository_hashFile env (assetPath job)) as [sum|err] eqn:Hhash.
  2:{ exists (Throw err), [], [],
        (front ++ [CallMimeLookup (assetPath job);
                   CallIsAsset (assetPath job);
                   CallHashFile (assetPath job)]).
      subst front existing. no_row_branch.
      run_worker. rewrite Hstat; simpl.
      destruct (find _ (catalog w)) as [e|]; simpl.
      - destruct (isOffline e); simpl; rewrite Himp; simpl; rewrite Hm; simpl;
          rewrite Hempty; simpl; rewrite Hasset; simpl; rewrite Hhash; simpl;
          rewrite <- ?app_assoc; reflexivity.
      - rewrite Hm; simpl; rewrite Hempty; simpl; rewrite Hasset; simpl;
          rewrite Hhash; simpl.
        rewrite <- ?app_assoc; reflexivity. }
  apply String.eqb_neq in Hempty.
  pose proof (handleRefreshAsset_import_run env job w Hstat Himp Hm Hempty
                Hasset Hhash) as Hrun.
  simpl in Hrun.
  eexists _, [_], _, _. split.
  - rewrite Hrun. simpl length. rewrite Nat.add_1_r. reflexivity.
  - right. eexists. repeat split; reflexivity.
Qed.

(** Whatever happens after a failed [stat]. *)
Lemma handleRefreshAsset_stat_fails_shape env job w error :
  fs_stat env (statCalls w) (assetPath job) = Throw error ->
  exists r base calls,
    handleRefreshAsset env job w =
    (r, mkWorld base (nextAssetId w) (queue w) (S (statCalls w))
          (trace w ++ calls)) /\
    map (set_isOffline false) base = map (set_isOffline false) (catalog w).
Proof.
  intro Hstat. run_worker. rewrite Hstat; simpl.
  destruct (find _ (catalog w)) as [e|]; simpl.
  - do 3 eexists. split.
    + rewrite <- !app_assoc. reflexivity.
    + rewrite map_map. apply map_ext. intro a.
      apply (set_isOffline_markRow (id e) true false a).
  - do 3 eexists. split.
    + rewrite <- !app_assoc. reflexivity.
    + reflexivity.
Qed.

(** ** More on the ingest worker *)

Lemma find_none_filter {A} (f : A -> bool) l :
  find f l = None -> filter f l = [].
Proof.
  rewrite find_filter_head. destruct (filter f l); [reflexivity|discriminate].
Qed.

Lemma matches_path_newAsset env job stats sum m side i :
  matches_path (libraryId job) (assetPath job)
    (newAsset env job stats sum m side i) = true.
Proof. unfold matches_path; simpl. now rewrite !String.eqb_refl. Qed.

(** X1. A file whose mime type cannot be determined ([mime.lookup] gives
    nothing or the empty string) fails the job with an [Error] once an
    import is decided: no support check, no checksum, no row and no
    follow-on job; the catalog changes at most by the cleared offline flag
    of the asset found. *)
Theorem handleRefreshAsset_mime_undetermined env job w stats :
  fs_stat env (statCalls w) (assetPath job) = Ok stats ->
  doImport job
    (find (matches_path (libraryId job) (assetPath job)) (catalog w)) stats
  = true ->
  mime_lookup env (assetPath job) = None \/
  mime_lookup env (assetPath job) = Some EmptyString ->
  let existing :=
    find (matches_path (libraryId job) (assetPath job)) (catalog w) in
  handleRefreshAsset env job w =
  (Throw (Error ("Cannot determine mime type of asset: "
                 ++ assetPath job)%string),
   mkWorld (clearedCatalog existing (catalog w)) (nextAssetId w) (queue w)
     (S (statCalls w))
     (trace w
        ++ [CallGetByPath (libraryId job) (assetPath job);
            CallStat (assetPath job)]
        ++ clearCalls existing ++ [CallMimeLookup (assetPath job)])).
Proof.
  intros Hstat Himp Hm existing. subst existing.
  unfold clearedCatalog, clearCalls.
  run_worker. rewrite Hstat; simpl.
  destruct (find _ (catalog w)) as [e|]; simpl.
  - destruct (isOffline e); simpl; rewrite Himp; simpl;
      destruct Hm as [Hm|Hm]; rewrite Hm; simpl;
      rewrite <- ?app_assoc; reflexivity.
  - destruct Hm as [Hm|Hm]; rewrite Hm; simpl;
      rewrite <- ?app_assoc; reflexivity.
Qed.

(** X2. A file whose mime type is found but which [mimeTypes.isAsset]
    does not accept fails the job with a [BadRequestException] that names
    the mime type: no checksum, no row and no follow-on job. *)
Theorem handleRefreshAsset_unsupported_type env job w stats mimeType :
  fs_stat env (statCalls w) (assetPath job) = Ok stats ->
  doImport job
    (find (matches_path (libraryId job) (assetPath job)) (catalog w)) stats
  = true ->
  mime_lookup env (assetPath job) = Some mimeType ->
  mimeType <> EmptyString ->
  mimeTypes_isAsset env (assetPath job) = false ->
  let existing :=
    find (matches_path (libraryId job) (assetPath job)) (catalog w) in
  handleRefreshAsset env job w =
  (Throw (BadRequestException ("Unsupported file type " ++ mimeType)%string),
   mkWorld (clearedCatalog existing (catalog w)) (nextAssetId w) (queue w)
     (S (statCalls w))
     (trace w
        ++ [CallGetByPath (libraryId job) (assetPath job);
            CallStat (assetPath job)]
        ++ clearCalls existing
        ++ [CallMimeLookup (assetPath job); CallIsAsset (assetPath job)])).
Proof.
  intros Hstat Himp Hm Hne Hasset existing. subst existing.
  apply String.eqb_neq in Hne.
  unfold clearedCatalog, clearCalls.
  run_worker. rewrite Hstat; simpl.
  destruct (find _ (catalog w)) as [e|]; simpl.
  - destruct (isOffline e); simpl; rewrite Himp; simpl;
      rewrite Hm; simpl; rewrite Hne; simpl; rewrite Hasset; simpl;
      rewrite <- ?app_assoc; reflexivity.
  - rewrite Hm; simpl; rewrite Hne; simpl; rewrite Hasset; simpl;
      rewrite <- ?app_assoc; reflexivity.
Qed.

(** X3. The first sighting of a file is imported whatever [forceRefresh]
    says; afterwards the catalog holds exactly one row for the path, a
    lookup by library and path finds it, and the row is read-only, not
    offline, owned by the owner of the job and carries the checksum and
    the two dates of the [stat]. *)
Theorem handleRefreshAsset_first_import env job w stats mimeType sum :
  find (matches_path (libraryId job) (assetPath job)) (catalog w) = None ->
  fs_stat env (statCalls w) (assetPath job) = Ok stats ->
  mime_lookup env (assetPath job) = Some mimeType ->
  mimeType <> EmptyString ->
  mimeTypes_isAsset env (assetPath job) = true ->
  cryptoRepository_hashFile env (assetPath job) = Ok sum ->
  exists w' row,
    handleRefreshAsset env job w = (Ok true, w') /\
    catalog w' = catalog w ++ [row] /\
    rowsFor (libraryId job) (assetPath job) w' = [row] /\
    find (matches_path (libraryId job) (assetPath job)) (catalog w')
    = Some row /\
    id row = nextAssetId w /\
    owner row = ownerId job /\
    checksum row = sum /\
    fileModifiedAt row = mtime stats /\
    fileCreatedAt row = ctime stats /\
    isReadOnly row = true /\
    isOffline row = false.
Proof.
  intros Hfind Hstat Hm Hne Hasset Hhash.
  assert (Himp : doImport job
            (find (matches_path (libraryId job) (assetPath job)) (catalog w))
            stats = true) by (rewrite Hfind; reflexivity).
  pose proof (handleRefreshAsset_import_run env job w Hstat Himp Hm Hne
                Hasset Hhash) as Hrun.
  simpl in Hrun. rewrite Hfind in Hrun. simpl in Hrun.
  do 2 eexists. split; [exact Hrun|]. simpl.
  split; [reflexivity|].
  assert (Hrows : filter (matches_path (libraryId job) (assetPath job))
                    (catalog w ++ [newAsset env job stats sum mimeType
                                     (sidecarOf env (assetPath job))
                                     (nextAssetId w)])
                  = [newAsset env job stats sum mimeType
                       (sidecarOf env (assetPath job)) (nextAssetId w)]).
  { rewrite filter_app, (find_none_filter _ _ Hfind). simpl.
    now rewrite matches_path_newAsset. }
  split; [exact Hrows|]. split.
  - rewrite find_filter_head. unfold rowsFor in Hrows. simpl in Hrows.
    now rewrite Hrows.
  - repeat split; reflexivity.
Qed.

Lemma import_trace_facts env job w stats mimeType sum :
  fs_stat env (statCalls w) (assetPath job) = Ok stats ->
  doImport job
    (find (matches_path (libraryId job) (assetPath job)) (catalog w)) stats
  = true ->
  mime_lookup env (assetPath job) = Some mimeType ->
  mimeType <> EmptyString ->
  mimeTypes_isAsset env (assetPath job) = true ->
  cryptoRepository_hashFile env (assetPath job) = Ok sum ->
  exists w' calls,
    handleRefreshAsset env job w = (Ok true, w') /\
    trace w' = trace w ++ calls /\
    In (CallHashFile (assetPath job)) calls /\
    In (CallCreate (assetPath job)) calls /\
    length (catalog w') = S (length (catalog w)).
Proof.
  intros Hstat Himp Hm Hne Hasset Hhash.
  pose proof (handleRefreshAsset_import_run env job w Hstat Himp Hm Hne
                Hasset Hhash) as Hrun.
  simpl in Hrun.
  do 2 eexists. split; [exact Hrun|]. simpl. split; [reflexivity|].
  split; [|split].
  - do 2 right. apply in_or_app. right. simpl. auto.
  - do 2 right. apply in_or_app. right. simpl. auto 6.
  - rewrite length_app, clearedCatalog_length. simpl. lia.
Qed.

(** X4. [forceRefresh] wins over the comparison of the modification
    times: with it the worker imports a file it already knows, also when
    the stored and the stat'ed date are one and the same object; the
    checksum is computed and a row is stored. *)
Theorem handleRefreshAsset_force_refresh env job w e stats mimeType sum :
  forceRefresh job = true ->
  find (matches_path (libraryId job) (assetPath job)) (catalog w) = Some e ->
  fs_stat env (statCalls w) (assetPath job) = Ok stats ->
  mime_lookup env (assetPath job) = Some mimeType ->
  mimeType <> EmptyString ->
  mimeTypes_isAsset env (assetPath job) = true ->
  cryptoRepository_hashFile env (assetPath job) = Ok sum ->
  exists w' calls,
    handleRefreshAsset env job w = (Ok true, w') /\
    trace w' = trace w ++ calls /\
    In (CallHashFile (assetPath job)) calls /\
    In (CallCreate (assetPath job)) calls /\
    length (catalog w') = S (length (catalog w)).
Proof.
  intros Hforce Hfind Hstat Hm Hne Hasset Hhash.
  apply (@import_trace_facts env job w stats mimeType sum); auto.
  rewrite Hfind. unfold doImport. rewrite Hforce.
  now destruct (strict_neq (mtime stats) (fileModifiedAt e)).
Qed.

(** X5. Whenever the date that [stat] hands out is another object than
    the stored one, the worker imports the file it already knows, also
    without [forceRefresh] and also when both dates denote one instant:
    the checksum is computed and a row is stored. *)
Theorem handleRefreshAsset_distinct_dates_reimport
    env job w e stats mimeType sum :
  find (matches_path (libraryId job) (assetPath job)) (catalog w) = Some e ->
  fs_stat env (statCalls w) (assetPath job) = Ok stats ->
  date_ref (mtime stats) <> date_ref (fileModifiedAt e) ->
  mime_lookup env (assetPath job) = Some mimeType ->
  mimeType <> EmptyString ->
  mimeTypes_isAsset env (assetPath job) = true ->
  cryptoRepository_hashFile env (assetPath job) = Ok sum ->
  exists w' calls,
    handleRefreshAsset env job w = (Ok true, w') /\
    trace w' = trace w ++ calls /\
    In (CallHashFile (assetPath job)) calls /\
    In (CallCreate (assetPath job)) calls /\
    length (catalog w') = S (length (catalog w)).
Proof.
  intros Hfind Hstat Hrefs Hm Hne Hasset Hhash.
  apply (@import_trace_facts env job w stats mimeType sum); auto.
  rewrite Hfind. now apply distinct_dates_force_import.
Qed.

(** X6. A sidecar that cannot be read never fails an import: the worker
    answers [true] either way, and the stored row names [<path>.xmp] as
    its sidecar exactly when that file is readable. *)
Theorem handleRefreshAsset_sidecar env job w stats mimeType sum :
  fs_stat env (statCalls w) (assetPath job) = Ok stats ->
  doImport job
    (find (matches_path (libraryId job) (assetPath job)) (catalog w)) stats
  = true ->
  mime_lookup env (assetPath job) = Some mimeType ->
  mimeType <> EmptyString ->
  mimeTypes_isAsset env (assetPath job) = true ->
  cryptoRepository_hashFile env (assetPath job) = Ok sum ->
  exists w' row,
    handleRefreshAsset env job w = (Ok true, w') /\
    In row (catalog w') /\
    id row = nextAssetId w /\
    sidecarPath row =
      (if fs_access env (assetPath job ++ ".xmp")%string
       then Some (assetPath job ++ ".xmp")%string else None).
Proof.
  intros Hstat Himp Hm Hne Hasset Hhash.
  pose proof (handleRefreshAsset_import_run env job w Hstat Himp Hm Hne
                Hasset Hhash) as Hrun.
  simpl in Hrun.
  do 2 eexists. split; [exact Hrun|]. simpl. split.
  - apply in_or_app. right. left. reflexivity.
  - split; reflexivity.
Qed.

Lemma is_space2_length c d : is_space2 c d = true -> utf8_length c = 2.
Proof.
  unfold is_space2, utf8_length. intro H.
  apply andb_true_iff in H. destruct H as [H _].
  apply Nat.eqb_eq in H. now rewrite H.
Qed.

Lemma is_space3_length c d e : is_space3 c d e = true -> utf8_length c = 3.
Proof.
  unfold is_space3, utf8_length. intro H.
  repeat (apply orb_true_iff in H; destruct H as [H|H]);
    repeat (apply andb_true_iff in H; destruct H as [H ?]);
    apply Nat.eqb_eq in H; now rewrite H.
Qed.

Lemma is_space2_second c d : nat_of_ascii d < 128 -> is_space2 c d = false.
Proof.
  intro H. unfold is_space2.
  destruct (Nat.eqb_spec (nat_of_ascii d) 160); [lia|].
  apply andb_false_r.
Qed.

Lemma is_space2_first c d : nat_of_ascii c < 128 -> is_space2 c d = false.
Proof.
  intro H. unfold is_space2.
  destruct (Nat.eqb_spec (nat_of_ascii c) 194); [lia|reflexivity].
Qed.

Lemma is_space3_first c d e : nat_of_ascii c < 128 -> is_space3 c d e = false.
Proof.
  intro H. unfold is_space3.
  destruct (Nat.eqb_spec (nat_of_ascii c) 225); [lia|].
  destruct (Nat.eqb_spec (nat_of_ascii c) 226); [lia|].
  destruct (Nat.eqb_spec (nat_of_ascii c) 227); [lia|].
  destruct (Nat.eqb_spec (nat_of_ascii c) 239); [lia|].
  reflexivity.
Qed.

Lemma is_space3_second c d e : nat_of_ascii d < 128 -> is_space3 c d e = false.
Proof.
  intro H. unfold is_space3.
  destruct (Nat.eqb_spec (nat_of_ascii d) 154); [lia|].
  destruct (Nat.eqb_spec (nat_of_ascii d) 128); [lia|].
  destruct (Nat.eqb_spec (nat_of_ascii d) 129); [lia|].
  destruct (Nat.eqb_spec (nat_of_ascii d) 187); [lia|].
  rewrite !andb_false_r. reflexivity.
Qed.

Lemma is_space3_third c d e : nat_of_ascii e < 128 -> is_space3 c d e = false.
Proof.
  intro H. unfold is_space3.
  destruct (Nat.eqb_spec (nat_of_ascii e) 128); [lia|].
  destruct (Nat.eqb_spec (nat_of_ascii e) 168); [lia|].
  destruct (Nat.eqb_spec (nat_of_ascii e) 169); [lia|].
  destruct (Nat.eqb_spec (nat_of_ascii e) 175); [lia|].
  destruct (Nat.eqb_spec (nat_of_ascii e) 159); [lia|].
  destruct (Nat.eqb_spec (nat_of_ascii e) 191); [lia|].
  destruct (Nat.leb_spec 128 (nat_of_ascii e)); [lia|].
  rewrite !andb_false_r. reflexivity.
Qed.

(** A character that is kept does not become white space by what is
    kept after it. *)
Lemma kept_character_no_space c r :
  is_space c = false ->
  (forall d r2, r = String d r2 -> is_space2 c d = false) ->
  (forall d e r3, r = String d (String e r3) -> is_space3 c d e = false) ->
  has_space_from (utf8_length c - 1) (strip_from (utf8_length c - 1) r)
  = false ->
  has_space_from 0 (String c (strip_from (utf8_length c - 1) r)) = false.
Proof.
  intros Hc H2 H3 HY.
  remember (strip_from (utf8_length c - 1) r) as Y eqn:HeqY.
  cbn [has_space_from]. rewrite Hc.
  destruct Y as [|d' Y2]; [reflexivity|].
  destruct (is_space2 c d') eqn:E2.
  { exfalso. rewrite (is_space2_length _ _ E2) in HeqY.
    destruct r as [|d r2]; [discriminate|].
    cbn in HeqY. injection HeqY as Hd _. subst d'.
    rewrite (H2 _ _ eq_refl) in E2. discriminate. }
  destruct Y2 as [|e' Y3]; [exact HY|].
  destruct (is_space3 c d' e') eqn:E3; [|exact HY].
  exfalso. rewrite (is_space3_length _ _ _ E3) in HeqY.
  destruct r as [|d r2]; [discriminate|].
  destruct r2 as [|e r3]; [discriminate|].
  cbn in HeqY. injection HeqY as Hd He _. subst d' e'.
  rewrite (H3 _ _ _ eq_refl) in E3. discriminate.
Qed.

Lemma has_space_strip_from n :
  forall s k, String.length s <= n ->
              has_space_from k (strip_from k s) = false.
Proof.
  induction n as [|n IH]; intros s k Hlen.
  - destruct s; [reflexivity|simpl in Hlen; lia].
  - destruct s as [|c r]; [reflexivity|]. simpl in Hlen.
    destruct k as [|k'].
    2:{ cbn [strip_from has_space_from]. apply IH. lia. }
    cbn [strip_from].
    destruct (is_space c) eqn:Hc; [apply IH; lia|].
    destruct r as [|d r2].
    { cbn [has_space_from]. now rewrite Hc. }
    simpl in Hlen.
    destruct (is_space2 c d) eqn:H2; [apply IH; lia|].
    destruct r2 as [|e r3].
    { apply kept_character_no_space; auto.
      - intros d0 r0 [= <- _]. exact H2.
      - intros d0 e0 r0 [=].
      - apply IH. simpl. lia. }
    simpl in Hlen.
    destruct (is_space3 c d e) eqn:H3; [apply IH; lia|].
    apply kept_character_no_space; auto.
    + intros d0 r0 [= <- _]. exact H2.
    + intros d0 e0 r0 [= <- <- _]. exact H3.
    + apply IH. simpl. lia.
Qed.

Lemma has_space_strip (s : string) : has_space (strip_whitespace s) = false.
Proof.
  unfold has_space, strip_whitespace.
  apply (@has_space_strip_from (String.length s) s 0). apply Nat.le_refl.
Qed.

Lemma plain_cons c r :
  plain (String c r) = true ->
  nat_of_ascii c < 128 /\ is_space c = false /\ plain r = true.
Proof.
  simpl. intro H.
  apply andb_true_iff in H. destruct H as [H Hr].
  apply andb_true_iff in H. destruct H as [Hlt Hns].
  apply Nat.ltb_lt in Hlt. apply negb_true_iff in Hns. auto.
Qed.

Lemma strip_from_plain t :
  plain t = true -> forall k, strip_from k t = t.
Proof.
  induction t as [|c r IH]; intros Hp k; [now destruct k|].
  destruct (plain_cons _ _ Hp) as [Hlt [Hns Hr]].
  destruct k as [|k']; cbn [strip_from]; [|now rewrite IH].
  rewrite Hns.
  destruct r as [|d r2]; [reflexivity|].
  rewrite (is_space2_first c d Hlt).
  destruct r2 as [|e r3]; [now rewrite IH|].
  rewrite (is_space3_first c d e Hlt). now rewrite IH.
Qed.

Lemma append_empty (s : string) : (s ++ "")%string = s.
Proof. induction s as [|c s IH]; simpl; [reflexivity|now rewrite IH]. Qed.

(** Ahead of ASCII text other than white space, stripping stops where
    the text begins: nothing of the text is removed, and no white space
    reaches into it. *)
Lemma strip_from_app_plain n :
  forall a k t, String.length a <= n -> plain t = true ->
                strip_from k (a ++ t)%string = (strip_from k a ++ t)%string.
Proof.
  induction n as [|n IH]; intros a k t Hlen Hp.
  - destruct a; [|simpl in Hlen; lia]. simpl.
    rewrite strip_from_plain by exact Hp. now destruct k.
  - destruct a as [|c r].
    { simpl. rewrite strip_from_plain by exact Hp. now destruct k. }
    simpl in Hlen.
    destruct t as [|x t'].
    { now rewrite !append_empty. }
    destruct (plain_cons _ _ Hp) as [Hx [Hxs Ht']].
    destruct k as [|k'].
    2:{ cbn [String.append strip_from]. f_equal. apply IH; [lia|exact Hp]. }
    cbn [String.append strip_from].
    destruct (is_space c) eqn:Hc; [apply IH; [lia|exact Hp]|].
    destruct r as [|d r2].
    { cbn [String.append].
      rewrite (is_space2_second c x Hx).
      destruct t' as [|y t''].
      - f_equal. now apply strip_from_plain.
      - rewrite (is_space3_second c x y Hx). f_equal.
        now apply strip_from_plain. }
    simpl in Hlen. cbn [String.append].
    destruct (is_space2 c d) eqn:H2; [apply IH; [lia|exact Hp]|].
    destruct r2 as [|e r3].
    { cbn [String.append].
      rewrite (is_space3_third c d x Hx). f_equal.
      apply (IH (String d EmptyString)); [simpl; lia|exact Hp]. }
    simpl in Hlen. cbn [String.append].
    destruct (is_space3 c d e) eqn:H3; [apply IH; [lia|exact Hp]|].
    change (String c (strip_from (utf8_length c - 1)
                        (String d (String e r3))) ++ String x t')%string
      with (String c (strip_from (utf8_length c - 1)
                        (String d (String e r3)) ++ String x t')%string).
    f_equal.
    apply (IH (String d (String e r3))); [simpl; lia|exact Hp].
Qed.

Lemma plain_digits (d : Decimal.uint) :
  plain (NilEmpty.string_of_uint d) = true.
Proof. induction d; simpl; auto. Qed.

(** X7. The device asset id of an imported row is the file name with its
    white space removed, a dash and the size in decimal digits; it holds
    no white space. *)
Theorem handleRefreshAsset_deviceAssetId env job w stats mimeType sum :
  fs_stat env (statCalls w) (assetPath job) = Ok stats ->
  doImport job
    (find (matches_path (libraryId job) (assetPath job)) (catalog w)) stats
  = true ->
  mime_lookup env (assetPath job) = Some mimeType ->
  mimeType <> EmptyString ->
  mimeTypes_isAsset env (assetPath job) = true ->
  cryptoRepository_hashFile env (assetPath job) = Ok sum ->
  exists w' row,
    handleRefreshAsset env job w = (Ok true, w') /\
    In row (catalog w') /\
    id row = nextAssetId w /\
    deviceAssetId row =
      (strip_whitespace (path_basename env (assetPath job))
         ++ "-" ++ string_of_N (size stats))%string /\
    has_space (deviceAssetId row) = false.
Proof.
  intros Hstat Himp Hm Hne Hasset Hhash.
  pose proof (handleRefreshAsset_import_run env job w Hstat Himp Hm Hne
                Hasset Hhash) as Hrun.
  simpl in Hrun.
  do 2 eexists. split; [exact Hrun|]. simpl. split.
  - apply in_or_app. right. left. reflexivity.
  - split; [reflexivity|]. split.
    + unfold newAsset; simpl. unfold strip_whitespace.
      apply (@strip_from_app_plain
               (String.length (path_basename env (assetPath job)))
               (path_basename env (assetPath job)) 0).
      * apply Nat.le_refl.
      * unfold string_of_N. simpl. apply plain_digits.
    + unfold newAsset; simpl. apply has_space_strip.
Qed.

Lemma before_slash_app (cls sub : string) :
  contains_char "/" cls = false ->
  before_slash (cls ++ "/" ++ sub)%string = cls.
Proof.
  induction cls as [|c cls IH]; simpl; [reflexivity|].
  intro H. apply orb_false_iff in H. destruct H as [Hc Hrest].
  rewrite Hc. f_equal. now apply IH.
Qed.

Lemma upper_ascii_idem (c : ascii) :
  upper_ascii (upper_ascii c) = upper_ascii c.
Proof. destruct c as [[] [] [] [] [] [] [] []]; reflexivity. Qed.

Lemma upper_ascii_slash (c : ascii) :
  Ascii.eqb (upper_ascii c) "/" = Ascii.eqb c "/".
Proof. destruct c as [[] [] [] [] [] [] [] []]; reflexivity. Qed.

Lemma toUpperCase_idem (s : string) :
  toUpperCase (toUpperCase s) = toUpperCase s.
Proof.
  induction s as [|c s IH]; simpl; [reflexivity|].
  now rewrite upper_ascii_idem, IH.
Qed.

Lemma contains_slash_upper (s : string) :
  contains_char "/" (toUpperCase s) = contains_char "/" s.
Proof.
  induction s as [|c s IH]; simpl; [reflexivity|].
  now rewrite upper_ascii_slash, IH.
Qed.

(** X8. The asset type is read off the part of the mime type before the
    first slash alone: it is that class in upper case, whatever the
    subtype is and in whatever letter case the class is written. *)
Theorem assetTypeOf_class (cls sub : string) :
  contains_char "/" cls = false ->
  assetTypeOf (cls ++ "/" ++ sub)%string = toUpperCase cls /\
  assetTypeOf (toUpperCase cls ++ "/" ++ sub)%string = toUpperCase cls.
Proof.
  intro H. unfold assetTypeOf. split.
  - now rewrite before_slash_app.
  - rewrite before_slash_app by now rewrite contains_slash_upper.
    apply toUpperCase_idem.
Qed.

Lemma forallb_followOnJobs row : forallb isFollowOn (followOnJobs row) = true.
Proof.
  unfold followOnJobs.
  destruct (String.eqb (type row) AssetType_VIDEO); reflexivity.
Qed.

Lemma length_followOnJobs row : length (followOnJobs row) <= 2.
Proof.
  unfold followOnJobs.
  destruct (String.eqb (type row) AssetType_VIDEO); simpl; lia.
Qed.

(** X9. What one run of the ingest worker can do at most, whatever its
    outcome: it stats the path once; it deletes no row, keeps the rows in
    their order and changes no column of them but [isOffline]; it adds at
    most one row; it queues at most two jobs, only METADATA_EXTRACTION or
    VIDEO_CONVERSION, and none unless it has added a row. *)
Theorem handleRefreshAsset_effects env job w :
  exists base tail jobs,
    catalog (snd (handleRefreshAsset env job w)) = base ++ tail /\
    map (set_isOffline false) base = map (set_isOffline false) (catalog w) /\
    length tail <= 1 /\
    queue (snd (handleRefreshAsset env job w)) = queue w ++ jobs /\
    length jobs <= 2 /\
    forallb isFollowOn jobs = true /\
    (tail = [] -> jobs = []) /\
    nextAssetId (snd (handleRefreshAsset env job w))
    = nextAssetId w + length tail /\
    statCalls (snd (handleRefreshAsset env job w)) = S (statCalls w).
Proof.
  destruct (fs_stat env (statCalls w) (assetPath job)) as [stats|error] eqn:Hstat.
  - destruct (handleRefreshAsset_stat_ok_shape env job w Hstat)
      as [r [tail [jobs [calls [Hrun Hcase]]]]].
    rewrite Hrun. simpl.
    eexists _, tail, jobs. split; [reflexivity|].
    split; [apply clearedCatalog_columns|].
    destruct Hcase as [[-> ->]|[row [-> [-> _]]]]; simpl.
    + repeat split; auto.
    + repeat split; auto.
      * apply length_followOnJobs.
      * apply forallb_followOnJobs.
      * discriminate.
  - destruct (handleRefreshAsset_stat_fails_shape env job w Hstat)
      as [r [base [calls [Hrun Hbase]]]].
    rewrite Hrun. simpl.
    exists base, [], []. rewrite !app_nil_r, Nat.add_0_r. simpl.
    repeat split; auto.
Qed.

(** ** More on the offline worker *)

Lemma filter_other_ids_markRow i b l :
  filter (fun a => negb (Nat.eqb (id a) i)) (map (markRow i b) l)
  = filter (fun a => negb (Nat.eqb (id a) i)) l.
Proof.
  induction l as [|a l IH]; simpl; [reflexivity|].
  unfold markRow at 1 2.
  destruct (Nat.eqb (id a) i) eqn:Ha; simpl; rewrite ?Ha; simpl;
    now rewrite IH.
Qed.

Lemma filter_twice {A} (f : A -> bool) l :
  filter f (filter f l) = filter f l.
Proof.
  induction l as [|a l IH]; simpl; [reflexivity|].
  destruct (f a) eqn:Ha; simpl; rewrite ?Ha, IH; reflexivity.
Qed.

Lemma markRow_twice i b l :
  map (markRow i b) (map (markRow i b) l) = map (markRow i b) l.
Proof.
  rewrite map_map. apply map_ext. intro a. unfold markRow at 2.
  destruct (Nat.eqb (id a) i) eqn:Ha.
  - unfold markRow. simpl. now rewrite Ha.
  - unfold markRow. now rewrite Ha.
Qed.

Lemma handleOfflineAsset_found job w e :
  find (matches_path (libraryId job) (assetPath job)) (catalog w) = Some e ->
  handleOfflineAsset job w =
  (Ok true,
   mkWorld (if emptyTrash job
            then filter (fun r => negb (Nat.eqb (id r) (id e))) (catalog w)
            else map (markRow (id e) true) (catalog w))
     (nextAssetId w) (queue w) (statCalls w)
     (trace w ++ [CallGetByPath (libraryId job) (assetPath job);
                  if emptyTrash job then CallRemove (id e)
                  else CallUpdate (id e) true])).
Proof.
  intro Hfind.
  unfold handleOfflineAsset, bind,
    assetRepository_getByLibraryIdAndOriginalPath, logCall; simpl.
  rewrite Hfind. destruct (emptyTrash job); simpl;
    rewrite <- app_assoc; reflexivity.
Qed.

Lemma handleOfflineAsset_missing job w :
  find (matches_path (libraryId job) (assetPath job)) (catalog w) = None ->
  handleOfflineAsset job w =
  (Throw (BadRequestException
            ("Asset does not exist in database: " ++ assetPath job)%string),
   mkWorld (catalog w) (nextAssetId w) (queue w) (statCalls w)
     (trace w ++ [CallGetByPath (libraryId job) (assetPath job)])).
Proof.
  intro Hfind.
  unfold handleOfflineAsset, bind,
    assetRepository_getByLibraryIdAndOriginalPath, logCall, throw; simpl.
  now rewrite Hfind.
Qed.

(** X10. What one run of the offline worker can do at most: it queues no
    job, adds no row and never stats the file; without an asset for the
    path it leaves the catalog as it is, and with one it leaves every row
    with another id exactly as it was. *)
Theorem handleOfflineAsset_frame job w :
  queue (snd (handleOfflineAsset job w)) = queue w /\
  nextAssetId (snd (handleOfflineAsset job w)) = nextAssetId w /\
  statCalls (snd (handleOfflineAsset job w)) = statCalls w /\
  length (catalog (snd (handleOfflineAsset job w))) <= length (catalog w) /\
  match find (matches_path (libraryId job) (assetPath job)) (catalog w) with
  | None => catalog (snd (handleOfflineAsset job w)) = catalog w
  | Some e =>
      filter (fun a => negb (Nat.eqb (id a) (id e)))
             (catalog (snd (handleOfflineAsset job w)))
      = filter (fun a => negb (Nat.eqb (id a) (id e))) (catalog w)
  end.
Proof.
  destruct (find _ (catalog w)) as [e|] eqn:Hfind.
  - rewrite (handleOfflineAsset_found _ _ Hfind). simpl.
    repeat split; auto.
    + destruct (emptyTrash job); [apply filter_length_le|].
      now rewrite length_map.
    + destruct (emptyTrash job);
        [apply filter_twice|apply filter_other_ids_markRow].
  - rewrite (handleOfflineAsset_missing _ _ Hfind). simpl.
    repeat split; auto.
Qed.

(** X11. An offline job that is delivered twice.  Without [emptyTrash]
    the second run succeeds and leaves the catalog as the first run left
    it.  With [emptyTrash], and one row for the path, the second run
    fails: the asset it should delete is gone. *)
Theorem handleOfflineAsset_redelivery job w e :
  find (matches_path (libraryId job) (assetPath job)) (catalog w) = Some e ->
  (emptyTrash job = false ->
   fst (handleOfflineAsset job (snd (handleOfflineAsset job w))) = Ok true /\
   catalog (snd (handleOfflineAsset job (snd (handleOfflineAsset job w))))
   = catalog (snd (handleOfflineAsset job w))) /\
  (emptyTrash job = true ->
   length (rowsFor (libraryId job) (assetPath job) w) <= 1 ->
   fst (handleOfflineAsset job (snd (handleOfflineAsset job w)))
   = Throw (BadRequestException
              ("Asset does not exist in database: " ++ assetPath job)%string)
   /\
   catalog (snd (handleOfflineAsset job (snd (handleOfflineAsset job w))))
   = catalog (snd (handleOfflineAsset job w))).
Proof.
  intro Hfind. rewrite (handleOfflineAsset_found _ _ Hfind). split.
  - intro Htrash. rewrite Htrash. simpl.
    pose proof (find_markRow (libraryId job) (assetPath job) true _ Hfind)
      as Hagain.
    rewrite (@handleOfflineAsset_found job _ (set_isOffline true e))
      by exact Hagain.
    simpl. rewrite Htrash. split; [reflexivity|].
    apply markRow_twice.
  - intros Htrash Hone. rewrite Htrash. simpl.
    assert (Hgone : find (matches_path (libraryId job) (assetPath job))
                      (filter (fun r => negb (Nat.eqb (id r) (id e)))
                              (catalog w)) = None).
    { rewrite find_filter_head, filter_swap.
      unfold rowsFor in Hone.
      rewrite (single_row_is_found _ _ Hfind Hone). simpl.
      now rewrite Nat.eqb_refl. }
    rewrite handleOfflineAsset_missing by exact Hgone.
    split; reflexivity.
Qed.

Lemma set_isOffline_back e :
  isOffline e = false -> set_isOffline false (set_isOffline true e) = e.
Proof. destruct e; simpl; intros ->; reflexivity. Qed.

(** X12. Offline and back.  An asset that the offline worker marks
    offline (no [emptyTrash]) and whose file is then found again by the
    ingest worker is afterwards found in the catalog exactly as it was
    before the two runs, whatever the ingest worker decides about an
    import. *)
Theorem offline_then_ingest_restores env job w e stats :
  find (matches_path (libraryId job) (assetPath job)) (catalog w) = Some e ->
  isOffline e = false ->
  emptyTrash job = false ->
  fs_stat env (statCalls w) (assetPath job) = Ok stats ->
  find (matches_path (libraryId job) (assetPath job))
       (catalog (snd (handleRefreshAsset env job
                        (snd (handleOfflineAsset job w)))))
  = Some e.
Proof.
  intros Hfind Hon Htrash Hstat.
  rewrite (handleOfflineAsset_found _ _ Hfind), Htrash. simpl.
  set (w1 := mkWorld (map (markRow (id e) true) (catalog w)) (nextAssetId w)
               (queue w) (statCalls w)
               (trace w ++ [CallGetByPath (libraryId job) (assetPath job);
                            CallUpdate (id e) true])).
  pose proof (find_markRow (libraryId job) (assetPath job) true _ Hfind)
    as Hoff.
  destruct (@handleRefreshAsset_stat_ok_shape env job w1 stats Hstat)
    as [r [tail [jobs [calls [Hrun _]]]]].
  rewrite Hrun. simpl. rewrite Hoff. simpl.
  apply find_app_some.
  pose proof (find_markRow (libraryId job) (assetPath job) false _ Hoff)
    as Hback.
  change (id (set_isOffline true e)) with (id e) in Hback.
  rewrite Hback. now rewrite set_isOffline_back.
Qed.

(** ** More on the reconciler *)

(** Every pass, however it ends, leaves a world of this shape. *)
Lemma refresh_outcomes env authUser libId dto w :
  exists r found offl calls,
    refresh env authUser libId dto w =
    (r, mkWorld (catalog w) (nextAssetId w)
          (queue w
             ++ map (refreshJobOf env authUser libId dto)
                    (map (path_normalize env) found)
             ++ map (offlineJobOf authUser libId dto) offl)
          (statCalls w) (trace w ++ calls)).
Proof.
  destruct (libraryRepository_getById env libId) as [lib|e] eqn:Hlib.
  2:{ exists (Throw e), [], [], [CallGetLibrary libId].
      run_refresh. rewrite Hlib; simpl. now rewrite app_nil_r. }
  destruct (library_type lib) eqn:Htype.
  2:{ eexists _, [], [], _. run_refresh. rewrite Hlib; simpl.
      rewrite Htype; simpl. rewrite app_nil_r, <- app_assoc. reflexivity. }
  destruct (crawler_findAllMedia env (importPaths lib)) as [found|e] eqn:Hcrawl.
  2:{ exists (Throw e), [], [],
        [CallGetLibrary libId; CallCrawl (importPaths lib)].
      run_refresh. rewrite Hlib; simpl. rewrite Htype; simpl.
      rewrite Hcrawl; simpl. now rewrite app_nil_r, <- app_assoc. }
  pose proof (refresh_run env authUser libId dto w Hlib Htype Hcrawl) as Hrun.
  simpl in Hrun.
  destruct (getByLibraryId_fault env [libId]) as [e|].
  - eexists _, found, [], _. rewrite Hrun. simpl. rewrite app_nil_r.
    reflexivity.
  - eexists _, found, _, _. rewrite Hrun. reflexivity.
Qed.

(** X13. What one pass of the reconciler can do at most, however it
    ends: it leaves the catalog alone and never stats a file; it only
    appends to the queue, and every job it appends is a refresh or an
    offline job for the refreshed library and the calling user, with
    [emptyTrash] as requested ([false] by default).  A refresh job carries
    the requested [forceRefresh] ([false] by default); an offline job
    never carries [forceRefresh]. *)
Theorem refresh_effects env authUser libId dto w :
  exists jobs,
    catalog (snd (refresh env authUser libId dto w)) = catalog w /\
    nextAssetId (snd (refresh env authUser libId dto w)) = nextAssetId w /\
    statCalls (snd (refresh env authUser libId dto w)) = statCalls w /\
    queue (snd (refresh env authUser libId dto w)) = queue w ++ jobs /\
    forall j, In j jobs ->
      exists d,
        (j = REFRESH_LIBRARY_FILE d /\
         forceRefresh d = orFalse (dto_forceRefresh dto) \/
         j = OFFLINE_LIBRARY_FILE d /\ forceRefresh d = false) /\
        libraryId d = libId /\
        ownerId d = auth_id authUser /\
        emptyTrash d = orFalse (dto_emptyTrash dto).
Proof.
  destruct (refresh_outcomes env authUser libId dto w)
    as [r [found [offl [calls Hrun]]]].
  rewrite Hrun. simpl. eexists. repeat split; try reflexivity.
  intros j Hj. apply in_app_or in Hj. destruct Hj as [Hj|Hj];
    apply in_map_iff in Hj; destruct Hj as [p [<- _]].
  - eexists. split; [left; split; reflexivity|]. repeat split.
  - eexists. split; [right; split; reflexivity|]. repeat split.
Qed.

Lemma filter_nothing_crawled (l : list string) :
  filter (fun p => negb (includes [] p)) l = l.
Proof. induction l as [|a l IH]; simpl; [reflexivity|f_equal; exact IH]. Qed.

Lemma library_row_path env libId w a :
  In a (catalog w) -> library a = libId ->
  In (path_normalize env (originalPath a)) (catalogPathsOf env libId w).
Proof.
  intros Ha Hlib. unfold catalogPathsOf.
  apply in_map, in_map, filter_In. split; [exact Ha|].
  apply includes_In. left. now symmetry.
Qed.

Lemma catalogPathsOf_row env libId w p :
  In p (catalogPathsOf env libId w) ->
  exists a, In a (catalog w) /\ library a = libId /\
            path_normalize env (originalPath a) = p.
Proof.
  unfold catalogPathsOf. intro Hp.
  apply in_map_iff in Hp. destruct Hp as [q [<- Hq]].
  apply in_map_iff in Hq. destruct Hq as [a [<- Ha]].
  apply filter_In in Ha. destruct Ha as [Ha Hlib].
  apply includes_In in Hlib. destruct Hlib as [Hlib|[]].
  exists a. auto.
Qed.

(** X14. A crawl that finds nothing (an empty or unmounted import path)
    turns the whole library offline: the pass queues no refresh job and
    one offline job for every row of the library, in catalog order. *)
Theorem refresh_empty_crawl env authUser libId dto w lib :
  libraryRepository_getById env libId = Ok lib ->
  library_type lib = IMPORT ->
  crawler_findAllMedia env (importPaths lib) = Ok [] ->
  getByLibraryId_fault env [libId] = None ->
  exists w',
    refresh env authUser libId dto w = (Ok tt, w') /\
    queue w' = queue w ++ map (offlineJobOf authUser libId dto)
                              (catalogPathsOf env libId w) /\
    forall a, In a (catalog w) -> library a = libId ->
      In (offlineJobOf authUser libId dto
            (path_normalize env (originalPath a))) (queue w').
Proof.
  intros Hlib Htype Hcrawl Hfetch.
  pose proof (refresh_run env authUser libId dto w Hlib Htype Hcrawl) as Hrun.
  simpl in Hrun. rewrite Hfetch in Hrun.
  rewrite filter_nothing_crawled in Hrun.
  eexists. split; [exact Hrun|]. simpl. split; [reflexivity|].
  intros a Ha Hl. apply in_or_app. right.
  apply in_map. now apply library_row_path.
Qed.

(** X15. A pass queues a job only for a path it was given: the path of a
    refresh job is the normalized path of an entry of the crawl, and the
    path of an offline job is the normalized path of a row of the
    refreshed library that is not in the normalized crawl result.  Rows of
    other libraries never cause a job. *)
Theorem refresh_jobs_sound env authUser libId dto w lib found :
  libraryRepository_getById env libId = Ok lib ->
  library_type lib = IMPORT ->
  crawler_findAllMedia env (importPaths lib) = Ok found ->
  getByLibraryId_fault env [libId] = None ->
  exists w' emitted,
    refresh env authUser libId dto w = (Ok tt, w') /\
    queue w' = queue w ++ emitted /\
    (forall d, In (REFRESH_LIBRARY_FILE d) emitted ->
       exists q, In q found /\
         assetPath d = path_normalize env (path_normalize env q)) /\
    (forall d, In (OFFLINE_LIBRARY_FILE d) emitted ->
       ~ In (assetPath d) (map (path_normalize env) found) /\
       exists a, In a (catalog w) /\ library a = libId /\
                 path_normalize env (originalPath a) = assetPath d).
Proof.
  intros Hlib Htype Hcrawl Hfetch.
  pose proof (refresh_run env authUser libId dto w Hlib Htype Hcrawl) as Hrun.
  simpl in Hrun. rewrite Hfetch in Hrun.
  do 2 eexists. split; [exact Hrun|]. simpl. split; [reflexivity|]. split.
  - intros d Hd. apply in_app_or in Hd. destruct Hd as [Hd|Hd];
      apply in_map_iff in Hd; destruct Hd as [p [Heq Hp]];
      [|discriminate].
    injection Heq as <-. simpl.
    apply in_map_iff in Hp. destruct Hp as [q [<- Hq]]. eauto.
  - intros d Hd. apply in_app_or in Hd. destruct Hd as [Hd|Hd];
      apply in_map_iff in Hd; destruct Hd as [p [Heq Hp]];
      [discriminate|].
    injection Heq as <-. simpl.
    apply filter_In in Hp. destruct Hp as [Hp Hout]. split.
    + intro Hin. apply includes_In in Hin. rewrite Hin in Hout. discriminate.
    + now apply catalogPathsOf_row.
Qed.

(** X16. With an idempotent [path.normalize], every job of a pass names
    a path in normal form. *)
Theorem refresh_job_paths_normal env authUser libId dto w :
  (forall p, path_normalize env (path_normalize env p) = path_normalize env p) ->
  exists jobs,
    queue (snd (refresh env authUser libId dto w)) = queue w ++ jobs /\
    forall j d, In j jobs -> libraryJobOf j = Some d ->
      path_normalize env (assetPath d) = assetPath d.
Proof.
  intro Hidem.
  destruct (libraryRepository_getById env libId) as [lib|e] eqn:Hlib.
  2:{ exists []. split.
      - run_refresh. rewrite Hlib; simpl. now rewrite app_nil_r.
      - intros j d []. }
  destruct (library_type lib) eqn:Htype.
  2:{ exists []. split.
      - run_refresh. rewrite Hlib; simpl. rewrite Htype; simpl.
        now rewrite app_nil_r.
      - intros j d []. }
  destruct (crawler_findAllMedia env (importPaths lib)) as [fnd|e] eqn:Hcrawl.
  2:{ exists []. split.
      - run_refresh. rewrite Hlib; simpl. rewrite Htype; simpl.
        rewrite Hcrawl; simpl. now rewrite app_nil_r.
      - intros j d []. }
  pose proof (refresh_run env authUser libId dto w Hlib Htype Hcrawl) as Hrun'.
  simpl in Hrun'.
  destruct (getByLibraryId_fault env [libId]) as [e|]; rewrite Hrun'; simpl;
    eexists; (split; [reflexivity|]).
  - intros j d Hj Hd. apply in_map_iff in Hj. destruct Hj as [p [<- Hp]].
    injection Hd as <-. simpl. apply Hidem.
  - intros j d Hj Hd. apply in_app_or in Hj. destruct Hj as [Hj|Hj];
      apply in_map_iff in Hj; destruct Hj as [p [<- Hp]];
      injection Hd as <-; simpl.
    + apply Hidem.
    + apply filter_In in Hp. destruct Hp as [Hp _].
      apply catalogPathsOf_row in Hp. destruct Hp as [a [_ [_ <-]]].
      apply Hidem.
Qed.

Lemma find_some_of_In {A} (f : A -> bool) l a :
  In a l -> f a = true -> exists e, find f l = Some e.
Proof.
  induction l as [|x l IH]; simpl; [intros []|].
  intros [->|Ha] Hf.
  - rewrite Hf. eauto.
  - destruct (f x); eauto.
Qed.

(** X17. The reconciler and the offline worker fit together where the
    stored paths are in normal form: every offline job of a pass, handed
    to the offline worker in the world the pass leaves, finds its asset
    and is handled. *)
Theorem refresh_offline_job_accepted env authUser libId dto w lib found :
  libraryRepository_getById env libId = Ok lib ->
  library_type lib = IMPORT ->
  crawler_findAllMedia env (importPaths lib) = Ok found ->
  getByLibraryId_fault env [libId] = None ->
  (forall a, In a (catalog w) -> library a = libId ->
             path_normalize env (originalPath a) = originalPath a) ->
  exists w' emitted,
    refresh env authUser libId dto w = (Ok tt, w') /\
    queue w' = queue w ++ emitted /\
    forall d, In (OFFLINE_LIBRARY_FILE d) emitted ->
      fst (handleOfflineAsset d w') = Ok true.
Proof.
  intros Hlib Htype Hcrawl Hfetch Hnormal.
  pose proof (refresh_run env authUser libId dto w Hlib Htype Hcrawl) as Hrun.
  simpl in Hrun. rewrite Hfetch in Hrun.
  do 2 eexists. split; [exact Hrun|]. simpl. split; [reflexivity|].
  intros d Hd. apply in_app_or in Hd. destruct Hd as [Hd|Hd];
    apply in_map_iff in Hd; destruct Hd as [p [Heq Hp]]; [discriminate|].
  injection Heq as <-.
  apply filter_In in Hp. destruct Hp as [Hp _].
  apply catalogPathsOf_row in Hp. destruct Hp as [a [Ha [Hl Hpath]]].
  rewrite (Hnormal a Ha Hl) in Hpath.
  assert (Hmatch : matches_path libId p a = true).
  { unfold matches_path. rewrite Hl, Hpath, !String.eqb_refl. reflexivity. }
  destruct (find_some_of_In (matches_path libId p) (catalog w) a Ha Hmatch)
    as [e He].
  match goal with
  | |- fst (handleOfflineAsset ?j ?w0) = _ =>
      rewrite (@handleOfflineAsset_found j w0 e) by exact He
  end.
  reflexivity.
Qed.

(** X18. They do not fit together for a row whose stored path is not in
    normal form.  When no row of the library is stored under the
    normalized path, the pass queues an offline job for the normalized
    path, and the offline worker fails on that job with "Asset does not
    exist in database" and leaves the catalog as it is: the row is
    neither marked offline nor deleted. *)
Theorem refresh_offline_job_unnormalized env authUser libId dto w lib found a :
  libraryRepository_getById env libId = Ok lib ->
  library_type lib = IMPORT ->
  crawler_findAllMedia env (importPaths lib) = Ok found ->
  getByLibraryId_fault env [libId] = None ->
  In a (catalog w) ->
  library a = libId ->
  ~ In (path_normalize env (originalPath a)) (map (path_normalize env) found) ->
  find (matches_path libId (path_normalize env (originalPath a))) (catalog w)
  = None ->
  exists w' d,
    refresh env authUser libId dto w = (Ok tt, w') /\
    In (OFFLINE_LIBRARY_FILE d) (queue w') /\
    assetPath d = path_normalize env (originalPath a) /\
    fst (handleOfflineAsset d w')
    = Throw (BadRequestException
               ("Asset does not exist in database: "
                ++ path_normalize env (originalPath a))%string) /\
    catalog (snd (handleOfflineAsset d w')) = catalog w.
Proof.
  intros Hlib Htype Hcrawl Hfetch Ha Hl Hout Hnone.
  pose proof (refresh_run env authUser libId dto w Hlib Htype Hcrawl) as Hrun.
  simpl in Hrun. rewrite Hfetch in Hrun.
  eexists.
  exists (mkJob (path_normalize env (originalPath a)) (auth_id authUser) libId
                false (orFalse (dto_emptyTrash dto))).
  split; [exact Hrun|]. simpl. split; [|split; [reflexivity|]].
  - apply in_or_app. right. apply in_or_app. right.
    apply (in_map (offlineJobOf authUser libId dto)).
    apply filter_In. split; [now apply library_row_path|].
    destruct (includes (map (path_normalize env) found)
                       (path_normalize env (originalPath a))) eqn:Hin;
      [|reflexivity].
    apply includes_In in Hin. contradiction.
  - match goal with
    | |- fst (handleOfflineAsset ?j ?w0) = _ /\ _ =>
        rewrite (@handleOfflineAsset_missing j w0) by exact Hnone
    end.
    split; reflexivity.
Qed.

(** ** Library management *)

(** X19. [setImportPaths] on a library whose response type is not
    IMPORT is rejected with a [BadRequestException] before the repository
    is asked to write: the store is the one it was, whatever repository
    and [mapLibrary] the service is wired to. *)
Theorem setImportPaths_rejects_non_import
    {Store Response : Type} (deps : LibraryDeps Store Response)
    authUser libId dto (s : Store) lib :
  repo_getById (libraryRepository deps) libId s = Ok lib ->
  response_type deps (mapLibrary deps lib) <> IMPORT ->
  setImportPaths deps authUser libId dto s =
  (Throw (BadRequestException
            "Can only set import paths on an Import type library"), s).
Proof.
  intros Hget Htype.
  unfold setImportPaths, getLibraryById, lbind, readStore, lret, lthrow.
  rewrite Hget.
  destruct (response_type deps (mapLibrary deps lib)); [congruence|].
  reflexivity.
Qed.

Lemma find_after_setImportPaths i j paths s :
  find (hasLibraryId j)
       (map (fun x => if hasLibraryId i x then withImportPaths paths x else x) s)
  = match find (hasLibraryId j) s with
    | Some l => Some (if hasLibraryId i l then withImportPaths paths l else l)
    | None => None
    end.
Proof.
  induction s as [|x s IH]; simpl; [reflexivity|].
  assert (Hid : hasLibraryId j (if hasLibraryId i x
                                then withImportPaths paths x else x)
                = hasLibraryId j x)
    by (destruct (hasLibraryId i x); reflexivity).
  rewrite Hid. destruct (hasLibraryId j x); [reflexivity|exact IH].
Qed.

Lemma memory_setImportPaths_run authUser libId dto s lib :
  find (hasLibraryId libId) s = Some lib ->
  library_type lib = IMPORT ->
  setImportPaths memoryDeps authUser libId dto s
  = (Ok (withImportPaths (set_importPaths dto) lib),
     map (fun x => if hasLibraryId libId x
                   then withImportPaths (set_importPaths dto) x else x) s).
Proof.
  intros Hfind Htype.
  unfold setImportPaths, getLibraryById, lbind, readStore, lret, lthrow; simpl.
  unfold memory_getById, memory_setImportPaths. rewrite Hfind. simpl.
  rewrite Htype. simpl. now rewrite Hfind.
Qed.

Lemma memory_getById_after_set libId paths s lib :
  find (hasLibraryId libId) s = Some lib ->
  memory_getById libId
    (map (fun x => if hasLibraryId libId x
                   then withImportPaths paths x else x) s)
  = Ok (withImportPaths paths lib).
Proof.
  intro Hfind. unfold memory_getById.
  rewrite find_after_setImportPaths, Hfind.
  assert (Hid : hasLibraryId libId lib = true)
    by (apply find_some in Hfind; exact (proj2 Hfind)).
  now rewrite Hid.
Qed.

(** X20. On the repository in memory, the import paths set through
    [setImportPaths] on an IMPORT library are the ones [getImportPaths]
    answers with afterwards, and the import paths of every other library
    are the ones they were. *)
Theorem setImportPaths_then_getImportPaths authUser libId dto s lib :
  find (hasLibraryId libId) s = Some lib ->
  library_type lib = IMPORT ->
  exists s',
    setImportPaths memoryDeps authUser libId dto s
    = (Ok (withImportPaths (set_importPaths dto) lib), s') /\
    getImportPaths memoryDeps authUser libId s'
    = (Ok (set_importPaths dto), s') /\
    forall reader other,
      String.eqb other libId = false ->
      fst (getImportPaths memoryDeps reader other s')
      = fst (getImportPaths memoryDeps reader other s).
Proof.
  intros Hfind Htype.
  eexists. split; [now apply memory_setImportPaths_run|].
  unfold getImportPaths, lbind, readStore, lret; simpl. split.
  - now rewrite (memory_getById_after_set _ _ _ Hfind).
  - intros reader other Hother. unfold memory_getById.
    rewrite find_after_setImportPaths.
    destruct (find (hasLibraryId other) s) as [l|] eqn:Hl; [|reflexivity].
    assert (Hdiff : hasLibraryId libId l = false).
    { apply find_some in Hl. destruct Hl as [_ Hl].
      unfold hasLibraryId in *. apply String.eqb_eq in Hl. rewrite Hl.
      exact Hother. }
    now rewrite Hdiff.
Qed.

(** X21. The import paths set through [setImportPaths] are the ones the
    next pass of the reconciler crawls: the pass reads the library and
    hands exactly these paths to the crawler. *)
Theorem setImportPaths_then_refresh env authUser libId dto refreshDto s lib w :
  find (hasLibraryId libId) s = Some lib ->
  library_type lib = IMPORT ->
  exists calls,
    trace (snd (refresh
                  (withLibraries env
                     (snd (setImportPaths memoryDeps authUser libId dto s)))
                  authUser libId refreshDto w))
    = trace w ++ CallGetLibrary libId
              :: CallCrawl (set_importPaths dto) :: calls.
Proof.
  intros Hfind Htype.
  rewrite (memory_setImportPaths_run authUser _ dto _ Hfind Htype). simpl.
  set (s' := map (fun x => if hasLibraryId libId x
                           then withImportPaths (set_importPaths dto) x
                           else x) s).
  assert (Hget : libraryRepository_getById (withLibraries env s') libId
                 = Ok (withImportPaths (set_importPaths dto) lib))
    by (apply memory_getById_after_set; exact Hfind).
  destruct (crawler_findAllMedia (withLibraries env s') (set_importPaths dto))
    as [found|e] eqn:Hcrawl.
  - pose proof (@refresh_run (withLibraries env s') authUser libId refreshDto
                  w _ found Hget Htype Hcrawl) as Hrun.
    simpl in Hrun.
    destruct (getByLibraryId_fault env [libId]);
      rewrite Hrun; simpl; eexists; reflexivity.
  - simpl in Hget, Hcrawl. run_refresh. rewrite Hget. simpl.
    rewrite Htype. simpl. rewrite Hcrawl. simpl.
    exists []. now rewrite <- app_assoc.
Qed.

(** ** The further properties on the sample installation *)

Lemma handleRefreshAsset_mime_undetermined_witness :
  handleRefreshAsset clutteredEnv (jobFor "/media/notes.xyz" false false)
    emptyWorld
  = (Throw (Error "Cannot determine mime type of asset: /media/notes.xyz"),
     mkWorld [] 1 [] 1
       [CallGetByPath "lib-1" "/media/notes.xyz"; CallStat "/media/notes.xyz";
        CallMimeLookup "/media/notes.xyz"]).
Proof.
  exact (@handleRefreshAsset_mime_undetermined clutteredEnv
           (jobFor "/media/notes.xyz" false false) emptyWorld
           (mkStats 100 (mkDate 1000 7000) (mkDate 1001 7000))
           eq_refl eq_refl (or_introl eq_refl)).
Defined.

Lemma handleRefreshAsset_unsupported_type_witness :
  handleRefreshAsset clutteredEnv (jobFor "/media/readme.txt" false false)
    emptyWorld
  = (Throw (BadRequestException "Unsupported file type text/plain"),
     mkWorld [] 1 [] 1
       [CallGetByPath "lib-1" "/media/readme.txt";
        CallStat "/media/readme.txt"; CallMimeLookup "/media/readme.txt";
        CallIsAsset "/media/readme.txt"]).
Proof.
  exact (@handleRefreshAsset_unsupported_type clutteredEnv
           (jobFor "/media/readme.txt" false false) emptyWorld
           (mkStats 100 (mkDate 1000 7100) (mkDate 1001 7100)) "text/plain"
           eq_refl eq_refl eq_refl ltac:(discriminate) eq_refl).
Defined.

Lemma handleRefreshAsset_first_import_witness :
  exists w' row,
    handleRefreshAsset mediaEnv (jobFor "/media/a.jpg" false false) mediaWorld
    = (Ok true, w') /\
    rowsFor "lib-1" "/media/a.jpg" w' = [row] /\
    id row = 3 /\
    checksum row = "sha1:/media/a.jpg" /\
    fileModifiedAt row = mkDate 1000 5000 /\
    isReadOnly row = true /\
    isOffline row = false.
Proof.
  destruct (@handleRefreshAsset_first_import mediaEnv
              (jobFor "/media/a.jpg" false false) mediaWorld
              (mkStats 100 (mkDate 1000 5000) (mkDate 1001 5000))
              "image/jpeg" "sha1:/media/a.jpg"
              eq_refl eq_refl eq_refl ltac:(discriminate) eq_refl eq_refl)
    as [w' [row [Hrun [_ [Hrows [_ [Hid [_ [Hsum [Hm [_ [Hro Hoff]]]]]]]]]]]].
  exists w', row. repeat split; assumption.
Defined.

Lemma handleRefreshAsset_force_refresh_witness :
  strict_neq (mkDate 1000 5000) (mkDate 1000 5000) = false /\
  exists w' calls,
    handleRefreshAsset mediaEnv (jobFor "/media/a.jpg" true false) sharedWorld
    = (Ok true, w') /\
    trace w' = calls /\
    In (CallHashFile "/media/a.jpg") calls /\
    length (catalog w') = 2.
Proof.
  split; [reflexivity|].
  destruct (@handleRefreshAsset_force_refresh mediaEnv
              (jobFor "/media/a.jpg" true false) sharedWorld
              (sampleAsset 1 "lib-1" "/media/a.jpg" (mkDate 1000 5000) true)
              (mkStats 100 (mkDate 1000 5000) (mkDate 1001 5000))
              "image/jpeg" "sha1:/media/a.jpg"
              eq_refl eq_refl eq_refl eq_refl ltac:(discriminate)
              eq_refl eq_refl)
    as [w' [calls [Hrun [Htrace [Hhash [_ Hlen]]]]]].
  exists w', calls. repeat split; assumption.
Defined.

Lemma handleRefreshAsset_distinct_dates_reimport_witness :
  exists w' calls,
    handleRefreshAsset mediaEnv (jobFor "/media/a.jpg" false false)
      unchangedWorld = (Ok true, w') /\
    trace w' = calls /\
    In (CallHashFile "/media/a.jpg") calls /\
    length (catalog w') = 2.
Proof.
  destruct (@handleRefreshAsset_distinct_dates_reimport mediaEnv
              (jobFor "/media/a.jpg" false false) unchangedWorld
              (sampleAsset 1 "lib-1" "/media/a.jpg" (mkDate 7 5000) false)
              (mkStats 100 (mkDate 1000 5000) (mkDate 1001 5000))
              "image/jpeg" "sha1:/media/a.jpg"
              eq_refl eq_refl ltac:(discriminate) eq_refl ltac:(discriminate)
              eq_refl eq_refl)
    as [w' [calls [Hrun [Htrace [Hhash [_ Hlen]]]]]].
  exists w', calls. repeat split; assumption.
Defined.

Lemma handleRefreshAsset_sidecar_witness :
  (exists w' row,
     handleRefreshAsset clutteredEnv (jobFor "/media/a.jpg" false false)
       emptyWorld = (Ok true, w') /\
     In row (catalog w') /\
     sidecarPath row = Some "/media/a.jpg.xmp") /\
  (exists w' row,
     handleRefreshAsset mediaEnv (jobFor "/media/a.jpg" false false)
       emptyWorld = (Ok true, w') /\
     In row (catalog w') /\
     sidecarPath row = None).
Proof.
  split.
  - destruct (@handleRefreshAsset_sidecar clutteredEnv
                (jobFor "/media/a.jpg" false false) emptyWorld
                (mkStats 100 (mkDate 1000 5000) (mkDate 1001 5000))
                "image/jpeg" "sha1:/media/a.jpg"
                eq_refl eq_refl eq_refl ltac:(discriminate) eq_refl eq_refl)
      as [w' [row [Hrun [Hin [_ Hside]]]]].
    exists w', row. repeat split; assumption.
  - destruct (@handleRefreshAsset_sidecar mediaEnv
                (jobFor "/media/a.jpg" false false) emptyWorld
                (mkStats 100 (mkDate 1000 5000) (mkDate 1001 5000))
                "image/jpeg" "sha1:/media/a.jpg"
                eq_refl eq_refl eq_refl ltac:(discriminate) eq_refl eq_refl)
      as [w' [row [Hrun [Hin [_ Hside]]]]].
    exists w', row. repeat split; assumption.
Defined.

Lemma handleRefreshAsset_deviceAssetId_witness :
  exists w' row,
    handleRefreshAsset spacedEnv (jobFor spacedPath false false)
      emptyWorld = (Ok true, w') /\
    In row (catalog w') /\
    deviceAssetId row = "myphoto1.jpg-100" /\
    has_space (deviceAssetId row) = false.
Proof.
  destruct (@handleRefreshAsset_deviceAssetId spacedEnv
              (jobFor spacedPath false false) emptyWorld
              (mkStats 100 (mkDate 1000 7200) (mkDate 1001 7200))
              "image/jpeg" ("sha1:" ++ spacedPath)%string
              eq_refl eq_refl eq_refl ltac:(discriminate) eq_refl eq_refl)
    as [w' [row [Hrun [Hin [_ [Hdev Hns]]]]]].
  exists w', row. repeat split; assumption.
Defined.

Lemma assetTypeOf_class_witness :
  assetTypeOf "video/mp4" = "VIDEO" /\ assetTypeOf "VIDEO/mp4" = "VIDEO".
Proof. exact (@assetTypeOf_class "video" "mp4" eq_refl). Defined.

Lemma handleOfflineAsset_redelivery_witness :
  (fst (handleOfflineAsset (jobFor "/media/b.jpg" false false)
          (snd (handleOfflineAsset (jobFor "/media/b.jpg" false false)
                  mediaWorld))) = Ok true) /\
  (fst (handleOfflineAsset (jobFor "/media/b.jpg" false true)
          (snd (handleOfflineAsset (jobFor "/media/b.jpg" false true)
                  mediaWorld)))
   = Throw (BadRequestException
              "Asset does not exist in database: /media/b.jpg")).
Proof.
  split.
  - exact (proj1 (proj1 (@handleOfflineAsset_redelivery
                           (jobFor "/media/b.jpg" false false) mediaWorld
                           (sampleAsset 1 "lib-1" "/media/b.jpg"
                                        (mkDate 7 4000) false)
                           eq_refl) eq_refl)).
  - exact (proj1 (proj2 (@handleOfflineAsset_redelivery
                           (jobFor "/media/b.jpg" false true) mediaWorld
                           (sampleAsset 1 "lib-1" "/media/b.jpg"
                                        (mkDate 7 4000) false)
                           eq_refl) eq_refl (le_n 1))).
Defined.

Lemma offline_then_ingest_restores_witness :
  find (matches_path "lib-1" "/media/a.jpg")
       (catalog (snd (handleRefreshAsset mediaEnv
                        (jobFor "/media/a.jpg" false false)
                        (snd (handleOfflineAsset
                                (jobFor "/media/a.jpg" false false)
                                changedWorld)))))
  = Some (sampleAsset 1 "lib-1" "/media/a.jpg" (mkDate 7 4000) false).
Proof.
  exact (@offline_then_ingest_restores mediaEnv
           (jobFor "/media/a.jpg" false false) changedWorld
           (sampleAsset 1 "lib-1" "/media/a.jpg" (mkDate 7 4000) false)
           (mkStats 100 (mkDate 1000 5000) (mkDate 1001 5000))
           eq_refl eq_refl eq_refl eq_refl).
Defined.

Lemma refresh_empty_crawl_witness :
  exists w',
    refresh clutteredEnv alice "lib-1" defaults mediaWorld = (Ok tt, w') /\
    queue w' = [OFFLINE_LIBRARY_FILE (jobFor "/media/b.jpg" false false);
                OFFLINE_LIBRARY_FILE (jobFor "/media/c.mp4" false false)].
Proof.
  destruct (@refresh_empty_crawl clutteredEnv alice "lib-1" defaults
              mediaWorld photos eq_refl eq_refl eq_refl eq_refl)
    as [w' [Hrun [Hq _]]].
  exists w'. split; [exact Hrun|exact Hq].
Defined.

Lemma refresh_jobs_sound_witness :
  exists w' emitted,
    refresh mediaEnv alice "lib-1" defaults mediaWorld = (Ok tt, w') /\
    queue w' = emitted /\
    forall d, In (OFFLINE_LIBRARY_FILE d) emitted ->
      ~ In (assetPath d) ["/media/a.jpg"; "/media/c.mp4"].
Proof.
  destruct (@refresh_jobs_sound mediaEnv alice "lib-1" defaults mediaWorld
              photos ["/media//a.jpg"; "/media/c.mp4"]
              eq_refl eq_refl eq_refl eq_refl)
    as [w' [emitted [Hrun [Hq [_ Hoff]]]]].
  exists w', emitted. split; [exact Hrun|]. split; [exact Hq|].
  intros d Hd. exact (proj1 (Hoff d Hd)).
Defined.

Lemma refresh_job_paths_normal_witness :
  exists jobs,
    queue (snd (refresh mediaEnv alice "lib-1" defaults mediaWorld)) = jobs /\
    forall j d, In j jobs -> libraryJobOf j = Some d ->
      squeeze_slashes (assetPath d) = assetPath d.
Proof.
  exact (@refresh_job_paths_normal mediaEnv alice "lib-1" defaults mediaWorld
           squeeze_slashes_idem).
Defined.

Lemma refresh_offline_job_accepted_witness :
  exists w' emitted,
    refresh mediaEnv alice "lib-1" defaults mediaWorld = (Ok tt, w') /\
    queue w' = emitted /\
    forall d, In (OFFLINE_LIBRARY_FILE d) emitted ->
      fst (handleOfflineAsset d w') = Ok true.
Proof.
  apply (@refresh_offline_job_accepted mediaEnv alice "lib-1" defaults
           mediaWorld photos ["/media//a.jpg"; "/media/c.mp4"]
           eq_refl eq_refl eq_refl eq_refl).
  intros a [<-|[<-|[]]] _; reflexivity.
Defined.

Lemma refresh_offline_job_unnormalized_witness :
  exists w' d,
    refresh mediaEnv alice "lib-1" defaults unnormalizedWorld = (Ok tt, w') /\
    In (OFFLINE_LIBRARY_FILE d) (queue w') /\
    assetPath d = "/media/b.jpg" /\
    fst (handleOfflineAsset d w')
    = Throw (BadRequestException
               "Asset does not exist in database: /media/b.jpg") /\
    catalog (snd (handleOfflineAsset d w')) = catalog unnormalizedWorld.
Proof.
  exact (@refresh_offline_job_unnormalized mediaEnv alice "lib-1" defaults
           unnormalizedWorld photos ["/media//a.jpg"; "/media/c.mp4"]
           (sampleAsset 1 "lib-1" "/media//b.jpg" (mkDate 7 4000) false)
           eq_refl eq_refl eq_refl eq_refl (or_introl eq_refl) eq_refl
           ltac:(intros [E|[E|[]]]; discriminate E)
           eq_refl).
Defined.

Lemma setImportPaths_rejects_non_import_witness :
  setImportPaths memoryDeps alice "lib-2"
    (mkSetImportPathsDto ["/mnt/photos"]) [photos; uploads]
  = (Throw (BadRequestException
              "Can only set import paths on an Import type library"),
     [photos; uploads]).
Proof.
  exact (@setImportPaths_rejects_non_import _ _ memoryDeps alice "lib-2"
           (mkSetImportPathsDto ["/mnt/photos"]) [photos; uploads] uploads
           eq_refl ltac:(discriminate)).
Defined.

Lemma setImportPaths_then_getImportPaths_witness :
  exists s',
    setImportPaths memoryDeps alice "lib-1"
      (mkSetImportPathsDto ["/mnt/photos"; "/mnt/more"]) [photos; uploads]
    = (Ok (withImportPaths ["/mnt/photos"; "/mnt/more"] photos), s') /\
    getImportPaths memoryDeps alice "lib-1" s'
    = (Ok ["/mnt/photos"; "/mnt/more"], s').
Proof.
  destruct (@setImportPaths_then_getImportPaths alice "lib-1"
              (mkSetImportPathsDto ["/mnt/photos"; "/mnt/more"])
              [photos; uploads] photos eq_refl eq_refl)
    as [s' [Hset [Hget _]]].
  exists s'. split; [exact Hset|exact Hget].
Defined.

Lemma setImportPaths_then_refresh_witness :
  exists calls,
    trace (snd (refresh
                  (withLibraries mediaEnv
                     (snd (setImportPaths memoryDeps alice "lib-1"
                             (mkSetImportPathsDto ["/mnt/photos"])
                             [photos; uploads])))
                  alice "lib-1" defaults mediaWorld))
    = CallGetLibrary "lib-1" :: CallCrawl ["/mnt/photos"] :: calls.
Proof.
  exact (@setImportPaths_then_refresh mediaEnv alice "lib-1"
           (mkSetImportPathsDto ["/mnt/photos"]) defaults
           [photos; uploads] photos mediaWorld eq_refl eq_refl).
Defined.

(** ** Where the workers depart from their description, continued *)

(** C6.  The file of [a.jpg] was ingested twice, which left two rows for
    its path (the re-import stores a row of its own).  An offline job
    with [emptyTrash] for that path is handled, but it deletes only the
    row the lookup finds: one row is left for the path, not none.  Without
    [emptyTrash] it marks only that row: the path then has two rows, one
    of them not offline. *)
Theorem emptyTrash_leaves_duplicate_row :
  let ingest := jobFor "/media/a.jpg" false false in
  let w1 := snd (handleRefreshAsset mediaEnv ingest emptyWorld) in
  let w2 := snd (handleRefreshAsset mediaEnv ingest w1) in
  let hard := handleOfflineAsset (jobFor "/media/a.jpg" false true) w2 in
  let soft := handleOfflineAsset (jobFor "/media/a.jpg" false false) w2 in
  map id (rowsFor "lib-1" "/media/a.jpg" w2) = [1; 2] /\
  fst hard = Ok true /\
  map id (rowsFor "lib-1" "/media/a.jpg" (snd hard)) = [2] /\
  trace (snd hard)
  = trace w2 ++ [CallGetByPath "lib-1" "/media/a.jpg"; CallRemove 1] /\
  fst soft = Ok true /\
  map (fun a => (id a, isOffline a))
      (rowsFor "lib-1" "/media/a.jpg" (snd soft))
  = [(1, true); (2, false)].
Proof. vm_compute. repeat split. Qed.

(** C10.  An asset exists for [a.jpg], [forceRefresh] is off, and the
    stored modification time and the one of the file are the same
    instant.  The worker does not take the skip path: the two dates are
    two objects, so [stats.mtime !== existingAssetEntity.fileModifiedAt]
    holds, and the run computes a checksum, stores a row and queues a
    follow-on job. *)
Theorem equal_instants_are_not_skipped :
  let job := jobFor "/media/a.jpg" false false in
  find (matches_path (libraryId job) (assetPath job)) (catalog unchangedWorld)
  = Some (sampleAsset 1 "lib-1" "/media/a.jpg" (mkDate 7 5000) false) /\
  forceRefresh job = false /\
  fs_stat mediaEnv (statCalls unchangedWorld) (assetPath job)
  = Ok (mkStats 100 (mkDate 1000 5000) (mkDate 1001 5000)) /\
  date_ms (mkDate 1000 5000) = date_ms (mkDate 7 5000) /\
  strict_neq (mkDate 1000 5000) (mkDate 7 5000) = true /\
  handleRefreshAsset mediaEnv job unchangedWorld
  = (Ok true,
     mkWorld [sampleAsset 1 "lib-1" "/media/a.jpg" (mkDate 7 5000) false;
              newAsset mediaEnv job
                (mkStats 100 (mkDate 1000 5000) (mkDate 1001 5000))
                "sha1:/media/a.jpg" "image/jpeg" None 2]
       3 [METADATA_EXTRACTION 2 "upload"] 1
       [CallGetByPath "lib-1" "/media/a.jpg"; CallStat "/media/a.jpg";
        CallMimeLookup "/media/a.jpg"; CallIsAsset "/media/a.jpg";
        CallHashFile "/media/a.jpg"; CallAccess "/media/a.jpg.xmp";
        CallCreate "/media/a.jpg";
        CallQueue (METADATA_EXTRACTION 2 "upload")]).
Proof. vm_compute. repeat split. Qed.
